(** * Race-summary extraction from Wikipedia Grand Prix articles

    A shallow embedding of
    [extract_wikipedia_f1_grand_prix_race_summaries_by_year.py] and the
    properties of its structural extraction: the lead scan, the
    heading-fenced section capture, the assembly of the page summary, the
    date lookup, the category discovery and the year filter.

    The script works on the tree that the HTML library builds from a page.
    That tree is the input of the embedding: parsing markup into a tree is
    the library's business, what the script does with the tree is modelled
    here function by function, under the names the script uses. *)

From Stdlib Require Import String Ascii List ZArith Bool Arith Lia.
From Stdlib Require Import Sorted Permutation.
Import ListNotations.

Open Scope list_scope.
Open Scope string_scope.

(* ===================================================================== *)
(** * Python strings *)
(* ===================================================================== *)

(** Characters are 8-bit; the character classes below are Python's on the
    ASCII range (code points from 128 up are in none of them). *)
Module Py.

Definition LF : ascii := "010"%char.

(** The blank-line separator ["\n\n"]. *)
Definition blank_line : string := String LF (String LF "").

Definition code (c : ascii) : nat := nat_of_ascii c.

(** [str.isspace] on one character: TAB..CR, FS..US and the space. *)
Definition isspace (c : ascii) : bool :=
  (((9 <=? code c) && (code c <=? 13)) || ((28 <=? code c) && (code c <=? 32)))%nat.

Definition isdigit (c : ascii) : bool :=
  ((48 <=? code c) && (code c <=? 57))%nat.

(** The class [\w] of the regular expressions: letters, digits, underscore. *)
Definition isword (c : ascii) : bool :=
  (isdigit c
   || ((65 <=? code c) && (code c <=? 90))
   || ((97 <=? code c) && (code c <=? 122))
   || (code c =? 95))%nat.

Definition lower (c : ascii) : ascii :=
  if ((65 <=? code c) && (code c <=? 90))%nat then ascii_of_nat (code c + 32) else c.

(** Truth value of a string: non-empty. *)
Definition truthy (s : string) : bool :=
  match s with
  | EmptyString => false
  | String _ _ => true
  end.

Fixpoint lstrip (s : string) : string :=
  match s with
  | EmptyString => EmptyString
  | String c s' => if isspace c then lstrip s' else s
  end.

Fixpoint rstrip (s : string) : string :=
  match s with
  | EmptyString => EmptyString
  | String c s' =>
      match rstrip s' with
      | EmptyString => if isspace c then EmptyString else String c EmptyString
      | r => String c r
      end
  end.

(** [s.strip()] *)
Definition strip (s : string) : string := rstrip (lstrip s).

(** [sep.join(parts)] *)
Definition join (sep : string) (parts : list string) : string :=
  String.concat sep parts.

(** [s.startswith(p)] *)
Definition startswith (s p : string) : bool := String.prefix p s.

(** [p in s] for strings *)
Fixpoint contains (s p : string) : bool :=
  String.prefix p s
  || match s with
     | EmptyString => false
     | String _ s' => contains s' p
     end.

(** The non-blank runs of a string, in order (what [re.findall(r"\S+", s)]
    returns); [cur] is the run being read. *)
Fixpoint tokens_from (cur s : string) : list string :=
  match s with
  | EmptyString => if truthy cur then [cur] else []
  | String c s' =>
      if isspace c
      then (if truthy cur then cur :: tokens_from "" s' else tokens_from "" s')
      else tokens_from (cur ++ String c "") s'
  end.

Definition tokens (s : string) : list string := tokens_from "" s.

Definition digit_val (c : ascii) : Z := Z.of_nat (code c) - 48.

(** [int(s)] on a string of decimal digits. *)
Definition int_of_digits (s : string) : Z :=
  fold_left (fun acc c => 10 * acc + digit_val c)%Z (list_ascii_of_string s) 0%Z.

End Py.

(* ===================================================================== *)
(** * The three regular expressions of the script *)
(* ===================================================================== *)

Module Re.
Import Py.

(** [.*$] against the rest of a subject: no line feed, except one that
    ends the subject. *)
Fixpoint dot_star_end (s : string) : bool :=
  match s with
  | EmptyString => true
  | String c s' =>
      if Ascii.eqb c LF
      then (match s' with EmptyString => true | _ => false end)
      else dot_star_end s'
  end.

(** The literal prefix [Race], any letter case. *)
Definition race_prefix (txt : string) : bool :=
  match txt with
  | String r (String a (String c (String e _))) =>
      Ascii.eqb (lower r) "r" && Ascii.eqb (lower a) "a"
      && Ascii.eqb (lower c) "c" && Ascii.eqb (lower e) "e"
  | _ => false
  end.

(** [re.match(r"^Race.*$", txt, re.IGNORECASE)] as a truth value. *)
Definition race_match (txt : string) : bool :=
  match txt with
  | String r (String a (String c (String e rest))) =>
      race_prefix txt && dot_star_end rest
  | _ => false
  end.

(** [re.match(r"^\d{4}-\d{2}-\d{2}$", s)] as a truth value; [$] also
    matches before a line feed that ends the subject. *)
Definition iso_match (s : string) : bool :=
  match s with
  | String y1 (String y2 (String y3 (String y4 (String h1
      (String m1 (String m2 (String h2 (String d1 (String d2 rest))))))))) =>
      isdigit y1 && isdigit y2 && isdigit y3 && isdigit y4
      && Ascii.eqb h1 "-" && isdigit m1 && isdigit m2
      && Ascii.eqb h2 "-" && isdigit d1 && isdigit d2
      && (String.eqb rest "" || String.eqb rest (String LF ""))
  | _ => false
  end.

(** [(19|20)\d{2}\b] at the head of [s]. *)
Definition year_here (s : string) : bool :=
  match s with
  | String a (String b (String c (String d rest))) =>
      ((Ascii.eqb a "1" && Ascii.eqb b "9") || (Ascii.eqb a "2" && Ascii.eqb b "0"))
      && isdigit c && isdigit d
      && match rest with
         | EmptyString => true
         | String e _ => negb (isword e)
         end
  | _ => false
  end.

(** The leftmost match of [\b(19|20)\d{2}\b] in what is left of the
    subject; [prev_word] tells whether the character before is a word
    character. *)
Fixpoint year_search_from (prev_word : bool) (s : string) : option string :=
  match s with
  | EmptyString => None
  | String c s' =>
      if negb prev_word && year_here s
      then Some (String.substring 0 4 s)
      else year_search_from (isword c) s'
  end.

(** [YEAR_RE.search(text)], giving [m.group(0)]. *)
Definition YEAR_RE_search (text : string) : option string :=
  year_search_from false text.

End Re.

(* ===================================================================== *)
(** * Document trees *)
(* ===================================================================== *)

#[local] Set Warnings "-register-all".

(** A node is bare text or an element with a tag name, its attributes in
    source order and its children. An attribute carries the value written
    in the page; the library presents a multi-valued attribute, [class]
    above all, as the list of its whitespace-separated tokens
    ([get_class]). Comments, declarations and the like are strings of
    classes of their own that [get_text] leaves out; they have no
    constructor here, so a tree is a page without them. *)
Inductive node : Type :=
| NavigableString (text : string)
| Tag (name : string) (attrs : list (string * string)) (contents : list node).

Module Bs4.
Import Py.

Definition is_tag (n : node) : bool :=
  match n with
  | Tag _ _ _ => true
  | NavigableString _ => false
  end.

(** [tag.name] *)
Definition name_of (n : node) : string :=
  match n with
  | Tag name _ _ => name
  | NavigableString _ => ""
  end.

(** [tag.children] *)
Definition children (n : node) : list node :=
  match n with
  | Tag _ _ contents => contents
  | NavigableString _ => []
  end.

Fixpoint lookup (key : string) (attrs : list (string * string)) : option string :=
  match attrs with
  | [] => None
  | (k, v) :: rest => if String.eqb k key then Some v else lookup key rest
  end.

(** [tag.get(key)] for a single-valued attribute. *)
Definition get (n : node) (key : string) : option string :=
  match n with
  | Tag _ attrs _ => lookup key attrs
  | NavigableString _ => None
  end.

(** [key in tag.attrs] *)
Definition has_attr (n : node) (key : string) : bool :=
  match get n key with
  | Some _ => true
  | None => false
  end.

(** [tag.get("class")]: the token list, when the attribute is there. *)
Definition get_class (n : node) : option (list string) :=
  option_map tokens (get n "class").

(** [tag.get("class", [])] *)
Definition get_class_or_empty (n : node) : list string :=
  match get_class n with
  | Some l => l
  | None => []
  end.

(** Truth value of [tag.get("class")]: there, with at least one token. *)
Definition class_truthy (n : node) : bool :=
  match get_class n with
  | Some (_ :: _) => true
  | _ => false
  end.

(** Everything below a node, in document order. *)
Fixpoint descendants (n : node) : list node :=
  match n with
  | NavigableString _ => []
  | Tag _ _ contents =>
      (fix walk (l : list node) : list node :=
         match l with
         | [] => []
         | c :: l' => c :: (descendants c ++ walk l')%list
         end) contents
  end.

Definition text_of (n : node) : option string :=
  match n with
  | NavigableString s => Some s
  | Tag _ _ _ => None
  end.

Fixpoint filter_map {A B : Type} (f : A -> option B) (l : list A) : list B :=
  match l with
  | [] => []
  | x :: l' =>
      match f x with
      | Some y => y :: filter_map f l'
      | None => filter_map f l'
      end
  end.

(** The elements whose text the tree builder keeps in string classes of
    their own (script, style sheet, template and ruby text): [get_text] on
    an element around them leaves that text out. *)
Definition string_containers : list string :=
  ["script"; "style"; "template"; "rt"; "rp"].

(** The plain text pieces of a node and of what is below it, in document
    order. *)
Fixpoint plain_strings (n : node) : list string :=
  match n with
  | NavigableString s => [s]
  | Tag name _ contents =>
      if existsb (String.eqb name) string_containers then []
      else
        (fix walk (l : list node) : list string :=
           match l with
           | [] => []
           | c :: l' => (plain_strings c ++ walk l')%list
           end) contents
  end.

(** The text pieces that [get_text] sees below an element, in document
    order: the plain text that lies in no string container below it. (For
    an element that itself lies inside a string container the library
    classes all its text with the container's; the tree of an element
    does not tell where it lies, and it is taken to lie outside.) *)
Definition all_strings (n : node) : list string :=
  flat_map plain_strings (children n).

(** [tag.get_text()] *)
Definition get_text (n : node) : string := join "" (all_strings n).

(** [tag.get_text(" ", strip=True)]: every piece stripped, the empty ones
    dropped, the rest joined by one space. *)
Definition get_text_stripped (n : node) : string :=
  join " " (filter truthy (map strip (all_strings n))).

(** [tag.find(names, recursive=False)] *)
Definition find_child (names : list string) (n : node) : option node :=
  find (fun c => is_tag c && existsb (String.eqb (name_of c)) names) (children n).

(** ** Serialization, [str(node)] *)

Definition DQ : ascii := "034"%char.

Fixpoint replace_char (c : ascii) (by_ : string) (s : string) : string :=
  match s with
  | EmptyString => EmptyString
  | String x s' =>
      if Ascii.eqb x c then by_ ++ replace_char c by_ s' else String x (replace_char c by_ s')
  end.

(** The default entity substitution: ampersand and angle brackets. *)
Definition substitute_xml (s : string) : string :=
  replace_char ">" "&gt;" (replace_char "<" "&lt;" (replace_char "&" "&amp;" s)).

Definition has_char (c : ascii) (s : string) : bool :=
  existsb (Ascii.eqb c) (list_ascii_of_string s).

(** An attribute value in quotes: double quotes, unless the value holds
    one and no single quote. *)
Definition quoted_attribute_value (v : string) : string :=
  if has_char DQ v
  then (if has_char "'" v
        then String DQ (replace_char DQ "&quot;" v ++ String DQ "")
        else "'" ++ v ++ "'")
  else String DQ (v ++ String DQ "").

(** The attributes the tree builder splits into tokens: some on every
    element, some on the elements named. *)
Definition multi_valued (tag key : string) : bool :=
  existsb (String.eqb key) ["class"; "accesskey"; "dropzone"]
  || existsb (fun entry : string * string =>
                String.eqb (fst entry) tag && String.eqb (snd entry) key)
       [("a", "rel"); ("a", "rev"); ("link", "rel"); ("link", "rev");
        ("td", "headers"); ("th", "headers"); ("form", "accept-charset");
        ("object", "archive"); ("area", "rel"); ("icon", "sizes");
        ("iframe", "sandbox"); ("output", "for")].

(** One attribute of element [tag] as markup; a token list is written with
    single spaces. *)
Definition attribute_markup (tag : string) (kv : string * string) : string :=
  let (k, v) := kv in
  let shown := if multi_valued tag k then join " " (tokens v) else v in
  " " ++ k ++ "=" ++ quoted_attribute_value (substitute_xml shown).

Definition void_elements : list string :=
  ["area"; "base"; "br"; "col"; "embed"; "hr"; "img"; "input"; "keygen";
   "link"; "menuitem"; "meta"; "param"; "source"; "track"; "wbr";
   "basefont"; "bgsound"; "command"; "frame"; "image"; "isindex";
   "nextid"; "spacer"].

(** The attributes in the order they are written in: sorted by name. *)
Fixpoint insert_attribute (kv : string * string) (l : list (string * string))
  : list (string * string) :=
  match l with
  | [] => [kv]
  | kv' :: l' =>
      if String.leb (fst kv) (fst kv') then kv :: l else kv' :: insert_attribute kv l'
  end.

Definition sorted_attributes (attrs : list (string * string)) : list (string * string) :=
  fold_right insert_attribute [] attrs.

(** The elements whose text is written as it is, with no entity put in. *)
Definition cdata_containing_tags : list string := ["script"; "style"].

(** [str(node)]: the markup of a node. *)
Fixpoint decode (n : node) : string :=
  match n with
  | NavigableString s => substitute_xml s
  | Tag name attrs contents =>
      let inner :=
        (fix all (l : list node) : string :=
           match l with
           | [] => ""
           | c :: l' =>
               match c with
               | NavigableString s =>
                   if existsb (String.eqb name) cdata_containing_tags
                   then s else substitute_xml s
               | Tag _ _ _ => decode c
               end ++ all l'
           end) contents in
      let opening :=
        name ++ String.concat "" (map (attribute_markup name) (sorted_attributes attrs)) in
      match contents with
      | [] =>
          if existsb (String.eqb name) void_elements
          then String "<" (opening ++ "/>")
          else String "<" ((opening ++ ">" ++ inner ++ "</" ++ name) ++ ">")
      | _ => String "<" ((opening ++ ">" ++ inner ++ "</" ++ name) ++ ">")
      end
  end.

(** ** Searching *)

(** [soup.select_one("div.mw-content-ltr.mw-parser-output")]-style
    selectors: a tag name and class tokens that must all be there. *)
Definition matches_tag_classes (tag : string) (classes : list string) (n : node) : bool :=
  is_tag n && String.eqb (name_of n) tag
  && forallb (fun c => existsb (String.eqb c) (get_class_or_empty n)) classes.

Definition select_one_tag_classes (tag : string) (classes : list string) (soup : node)
  : option node :=
  find (matches_tag_classes tag classes) (descendants soup).

(** [soup.select("a[href^='/wiki/']")]-style selectors: a tag name and an
    attribute whose value begins with a prefix. *)
Definition select_tag_attr_prefix (tag key pre : string) (soup : node) : list node :=
  filter (fun n => is_tag n && String.eqb (name_of n) tag
                   && match get n key with
                      | Some v => startswith v pre
                      | None => false
                      end) (descendants soup).

(** [soup.find_all(names, attrs=True)]: an [attrs] that is no dictionary
    is matched against the [class] attribute, and [True] matches whatever
    value is there; so: elements of these names that have a [class]. *)
Definition find_all_names_attrs_True (names : list string) (soup : node) : list node :=
  filter (fun n => is_tag n && existsb (String.eqb (name_of n)) names
                   && has_attr n "class") (descendants soup).

(** [soup.find_all(attrs={key: True})]: elements that have the attribute. *)
Definition find_all_with_attr (key : string) (soup : node) : list node :=
  filter (fun n => is_tag n && has_attr n key) (descendants soup).

End Bs4.

(* ===================================================================== *)
(** * Dictionaries *)
(* ===================================================================== *)

(** A Python dictionary keyed by integers keeps its entries in insertion
    order, and that order is what the script relies on: an association
    list with at most one entry per key, oldest entry first. *)
Module Dict.

Definition dict (V : Type) : Type := list (Z * V).

Definition keys {V : Type} (d : dict V) : list Z := map fst d.

Fixpoint get {V : Type} (d : dict V) (k : Z) : option V :=
  match d with
  | [] => None
  | (k', v) :: d' => if Z.eqb k' k then Some v else get d' k
  end.

(** [d[k]] where [k] is taken from [d]'s own keys; [dflt] stands where a
    [KeyError] would be raised. *)
Definition getitem {V : Type} (dflt : V) (d : dict V) (k : Z) : V :=
  match get d k with
  | Some v => v
  | None => dflt
  end.

(** [d[k] = v]: overwrite in place, or append. *)
Fixpoint set {V : Type} (d : dict V) (k : Z) (v : V) : dict V :=
  match d with
  | [] => [(k, v)]
  | (k', v') :: d' => if Z.eqb k' k then (k', v) :: d' else (k', v') :: set d' k v
  end.

(** [d.setdefault(k, v)]: append unless the key is there. *)
Definition setdefault {V : Type} (d : dict V) (k : Z) (v : V) : dict V :=
  match get d k with
  | Some _ => d
  | None => (d ++ [(k, v)])%list
  end.

Fixpoint insert_sorted (x : Z) (l : list Z) : list Z :=
  match l with
  | [] => [x]
  | y :: l' => if (x <=? y)%Z then x :: l else y :: insert_sorted x l'
  end.

(** [sorted(keys)] *)
Definition sorted (l : list Z) : list Z := fold_right insert_sorted [] l.

End Dict.

(* ===================================================================== *)
(** * Dates: [datetime.strptime] and [strftime] *)
(* ===================================================================== *)

Module Datetime.
Import Py.

Record datetime : Type := { year : Z; month : Z; day : Z }.

Definition is_leap (y : Z) : bool :=
  ((y mod 4 =? 0) && (negb (y mod 100 =? 0) || (y mod 400 =? 0)))%Z.

Definition days_in_month (y m : Z) : Z :=
  if (m =? 2)%Z then (if is_leap y then 29 else 28)%Z
  else if ((m =? 4) || (m =? 6) || (m =? 9) || (m =? 11))%Z then 30%Z
  else 31%Z.

Definition two (a b : ascii) : Z := (10 * digit_val a + digit_val b)%Z.

(** [datetime.strptime(s, "%Y-%m-%d")] on the subjects that reach it, which
    have passed [Re.iso_match]: four digits, two, two, and perhaps a final
    line feed. [None] is the [ValueError]: text left over, a month or a day
    out of range, the year 0. *)
Definition strptime_Ymd (s : string) : option datetime :=
  match s with
  | String y1 (String y2 (String y3 (String y4 (String h1
      (String m1 (String m2 (String h2 (String d1 (String d2 EmptyString))))))))) =>
      let y := (100 * two y1 y2 + two y3 y4)%Z in
      let m := two m1 m2 in
      let d := two d1 d2 in
      if isdigit y1 && isdigit y2 && isdigit y3 && isdigit y4
         && Ascii.eqb h1 "-" && isdigit m1 && isdigit m2
         && Ascii.eqb h2 "-" && isdigit d1 && isdigit d2
         && (1 <=? y)%Z && (1 <=? m)%Z && (m <=? 12)%Z
         && (1 <=? d)%Z && (d <=? days_in_month y m)%Z
      then Some {| year := y; month := m; day := d |}
      else None
  | _ => None
  end.

Definition digit (n : Z) : string := String (ascii_of_nat (48 + Z.to_nat n)) "".

Definition digits2 (n : Z) : string := digit (n / 10) ++ digit (n mod 10).

Definition digits4 (n : Z) : string := digits2 (n / 100) ++ digits2 (n mod 100).

(** A day of the month without padding. *)
Definition plain_day (d : Z) : string :=
  if (d <? 10)%Z then digit d else digits2 d.

(** [%B] in the C locale. *)
Definition month_name (m : Z) : string :=
  match m with
  | 1%Z => "January" | 2%Z => "February" | 3%Z => "March"
  | 4%Z => "April" | 5%Z => "May" | 6%Z => "June"
  | 7%Z => "July" | 8%Z => "August" | 9%Z => "September"
  | 10%Z => "October" | 11%Z => "November" | _ => "December"
  end.

(** The two formats the script asks for. *)
Inductive format : Type :=
| B_dashd_Y   (* "%B %-d, %Y" *)
| B_d_Y.      (* "%B %d, %Y"  *)

(** What the script needs to know of the platform's C library: whether
    [strftime] takes the [%-d] directive (glibc does; where it does not,
    the call raises [ValueError]). *)
Record platform : Type := { strftime_takes_dash : bool }.

Definition unix : platform := {| strftime_takes_dash := true |}.
Definition windows : platform := {| strftime_takes_dash := false |}.

(** [dt.strftime(fmt)]; [None] is the [ValueError]. [%Y] is the year on
    four digits, as documented (C libraries that do not pad a year below
    1000 differ there). *)
Definition strftime (pf : platform) (fmt : format) (dt : datetime) : option string :=
  match fmt with
  | B_dashd_Y =>
      if strftime_takes_dash pf
      then Some (month_name (month dt) ++ " " ++ plain_day (day dt) ++ ", " ++ digits4 (year dt))
      else None
  | B_d_Y =>
      Some (month_name (month dt) ++ " " ++ digits2 (day dt) ++ ", " ++ digits4 (year dt))
  end.

End Datetime.

(* ===================================================================== *)
(** * The script *)
(* ===================================================================== *)

Import Py Bs4.

(** ** Parsing helpers *)

(** [CONTENT_DIV_SELECTOR = "div.mw-content-ltr.mw-parser-output"] *)
Definition CONTENT_DIV_SELECTOR : string * list string :=
  ("div", ["mw-content-ltr"; "mw-parser-output"]).

Definition H2_DIV_CLASS : string := "mw-heading mw-heading2".
Definition H3_DIV_CLASS : string := "mw-heading mw-heading3".

Definition find_main_content_div (soup : node) : option node :=
  select_one_tag_classes (fst CONTENT_DIV_SELECTOR) (snd CONTENT_DIV_SELECTOR) soup.

(** The test that ends the lead scan: a [div] that has a [class] whose
    tokens, joined by a space, are [H2_DIV_CLASS]. *)
Definition is_h2_stop (child : node) : bool :=
  String.eqb (name_of child) "div" && has_attr child "class"
  && String.eqb (join " " (get_class_or_empty child)) H2_DIV_CLASS.

(** The test that collects a child into the lead. *)
Definition is_lead_paragraph (child : node) : bool :=
  String.eqb (name_of child) "p" && negb (class_truthy child).

(** The loop of [extract_opening_paragraphs] over [main_div.children]:
    the parts, their number and the stop node. *)
Fixpoint opening_scan (children : list node) : list string * nat * option node :=
  match children with
  | [] => ([], 0, None)
  | child :: rest =>
      if negb (is_tag child) then opening_scan rest
      else if is_h2_stop child then ([], 0, Some child)
      else
        let '(parts, p_count, stop_node) := opening_scan rest in
        if is_lead_paragraph child
        then (decode child :: parts, S p_count, stop_node)
        else (parts, p_count, stop_node)
  end.

Definition extract_opening_paragraphs (main_div : node) : string * nat * option node :=
  let '(parts, p_count, stop_node) := opening_scan (children main_div) in
  (join blank_line parts, p_count, stop_node).

Definition _heading_text_from_div (div : node) : string :=
  match find_child ["h2"; "h3"] div with
  | Some h => get_text_stripped h
  | None => get_text_stripped div
  end.

Definition _is_heading_div (tag : node) : bool :=
  if negb (String.eqb (name_of tag) "div") then false
  else
    let classes := join " " (get_class_or_empty tag) in
    String.eqb classes H2_DIV_CLASS || String.eqb classes H3_DIV_CLASS.

Definition _level_of_heading_div (div : node) : option Z :=
  let classes := join " " (get_class_or_empty div) in
  if String.eqb classes H2_DIV_CLASS then Some 2%Z
  else if String.eqb classes H3_DIV_CLASS then Some 3%Z
  else None.

(** Equality of nodes as the library defines it ([==], used by
    [list.index]): same text; or same name, same attributes whatever their
    order, a multi-valued one compared by tokens, and equal children
    pairwise. *)
Definition attr_value_eqb (tag k v1 v2 : string) : bool :=
  if multi_valued tag k
  then if list_eq_dec string_dec (tokens v1) (tokens v2) then true else false
  else String.eqb v1 v2.

Definition attrs_eqb (tag : string) (a1 a2 : list (string * string)) : bool :=
  forallb (fun kv : string * string =>
             match lookup (fst kv) a1, lookup (fst kv) a2 with
             | Some v1, Some v2 => attr_value_eqb tag (fst kv) v1 v2
             | _, _ => false
             end) (a1 ++ a2)%list.

Fixpoint node_eqb (a b : node) : bool :=
  match a, b with
  | NavigableString s, NavigableString t => String.eqb s t
  | Tag n1 a1 c1, Tag n2 a2 c2 =>
      String.eqb n1 n2 && attrs_eqb n1 a1 a2
      && (fix all (l1 l2 : list node) : bool :=
            match l1, l2 with
            | [], [] => true
            | x :: l1', y :: l2' => node_eqb x y && all l1' l2'
            | _, _ => false
            end) c1 c2
  | _, _ => false
  end.

(** [children.index(x)]; [None] is the [ValueError]. *)
Fixpoint index (children : list node) (x : node) : option nat :=
  match children with
  | [] => None
  | c :: rest =>
      if node_eqb c x then Some 0
      else option_map S (index rest x)
  end.

(** [[c for c in main_div.children if isinstance(c, Tag)]] *)
Definition element_children (main_div : node) : list node :=
  filter is_tag (children main_div).

Definition start_index (children : list node) (start_after : option node) : nat :=
  match start_after with
  | None => 0
  | Some t =>
      match index children t with
      | Some i => i + 1
      | None => 0
      end
  end.

(** The first loop of [extract_race_section_after], over
    [children[i], children[i+1], ...]: index and level of the first
    heading whose text matches. *)
Fixpoint locate_race_heading (i : nat) (nodes : list node) : option (nat * option Z) :=
  match nodes with
  | [] => None
  | node :: rest =>
      if negb (_is_heading_div node) then locate_race_heading (S i) rest
      else if Re.race_match (_heading_text_from_div node)
           then Some (i, _level_of_heading_div node)
           else locate_race_heading (S i) rest
  end.

Definition same_level (lvl : option Z) (race_heading_level : Z) : bool :=
  match lvl with
  | Some l => Z.eqb l race_heading_level
  | None => false
  end.

(** The second loop: the markup of the nodes up to the next heading of the
    same level, and how many of them are paragraphs. *)
Fixpoint capture (race_heading_level : Z) (nodes : list node) : list string * nat :=
  match nodes with
  | [] => ([], 0)
  | node :: rest =>
      if _is_heading_div node && same_level (_level_of_heading_div node) race_heading_level
      then ([], 0)
      else
        let (parts, p_count) := capture race_heading_level rest in
        (decode node :: parts,
         if String.eqb (name_of node) "p" then S p_count else p_count)
  end.

Definition extract_race_section_after (main_div : node) (start_after : option node)
  : string * nat :=
  let children := element_children main_div in
  let start_idx := start_index children start_after in
  match locate_race_heading start_idx (skipn start_idx children) with
  | Some (race_heading_idx, Some race_heading_level) =>
      let (parts, p_count) :=
        capture race_heading_level (skipn (race_heading_idx + 1) children) in
      (join blank_line parts, p_count)
  | _ => ("", 0)
  end.

(** The first element of a list on which [f] answers. *)
Fixpoint first_some {A B : Type} (f : A -> option B) (l : list A) : option B :=
  match l with
  | [] => None
  | x :: l' =>
      match f x with
      | Some y => Some y
      | None => first_some f l'
      end
  end.

Definition datetime_hit (t : node) : option string :=
  match get t "datetime" with
  | Some dt => if truthy dt && Re.iso_match dt then Some dt else None
  | None => None
  end.

Definition title_hit (t : node) : option string :=
  match get t "title" with
  | Some title => if Re.iso_match title then Some title else None
  | None => None
  end.

Definition extract_iso_date (soup : node) : option string :=
  match first_some datetime_hit (find_all_names_attrs_True ["time"; "span"] soup) with
  | Some dt => Some dt
  | None => first_some title_hit (find_all_with_attr "title" soup)
  end.

(** ** Category parsing *)

Definition SITE : string := "https://en.wikipedia.org".

Definition NON_ARTICLE_PREFIXES : list string :=
  ["/wiki/Talk:"; "/wiki/Category:"; "/wiki/File:"; "/wiki/Help:"].

(** The body of the loop over the anchors, up to the [setdefault]: the
    year and the target of an anchor that passes every [continue]. *)
Definition year_link_of (a : node) : option (Z * string) :=
  let text := strip (get_text a) in
  let href := match get a "href" with Some h => h | None => "" end in
  if negb (truthy text) || negb (truthy href) then None
  else
    match Re.YEAR_RE_search text with
    | None => None
    | Some group0 =>
        let year := int_of_digits group0 in
        if negb (contains text "Grand Prix") && negb (contains href "Grand_Prix")
        then None
        else if existsb (startswith href) NON_ARTICLE_PREFIXES then None
        else Some (year, href)
    end.

Definition record_link (links : Dict.dict string) (a : node) : Dict.dict string :=
  match year_link_of a with
  | Some (year, href) => Dict.setdefault links year (SITE ++ href)
  | None => links
  end.

(** [parse_year_links_from_category], on the parsed category page. *)
Definition parse_year_links_from_category (soup : node) : Dict.dict string :=
  let links := fold_left record_link (select_tag_attr_prefix "a" "href" "/wiki/" soup) [] in
  map (fun k => (k, Dict.getitem "" links k)) (Dict.sorted (Dict.keys links)).

(** ** Main extraction per page *)

Record page_summary : Type := { date : option string; race_summary : string }.

(** [lead_html.strip()] and [race_html.strip()], each only if not empty. *)
Definition combined_parts (lead_html race_html : string) : list string :=
  ((if truthy (strip lead_html) then [strip lead_html] else [])
   ++ (if truthy (strip race_html) then [strip race_html] else []))%list.

(** One [try] body: [datetime.strptime(iso, "%Y-%m-%d").strftime(fmt)];
    [None] is an exception of either call. *)
Definition convert (pf : Datetime.platform) (fmt : Datetime.format) (iso : string)
  : option string :=
  match Datetime.strptime_Ymd iso with
  | Some dt => Datetime.strftime pf fmt dt
  | None => None
  end.

(** The two nested [try] blocks around the conversion of the date. *)
Definition pretty_date_of (pf : Datetime.platform) (iso : option string) : option string :=
  match iso with
  | Some s =>
      if truthy s then
        match convert pf Datetime.B_dashd_Y s with
        | Some pretty => Some pretty
        | None => convert pf Datetime.B_d_Y s
        end
      else None
  | None => None
  end.

(** [extract_page_summary], on the parsed page. *)
Definition extract_page_summary (pf : Datetime.platform) (soup : node) : page_summary :=
  match find_main_content_div soup with
  | None => {| date := None; race_summary := "" |}
  | Some main_div =>
      let '(lead_html, i_count, stop_node) := extract_opening_paragraphs main_div in
      let '(race_html, j_count) := extract_race_section_after main_div stop_node in
      let combined_html := join blank_line (combined_parts lead_html race_html) in
      let iso := extract_iso_date soup in
      {| date := pretty_date_of pf iso; race_summary := combined_html |}
  end.

(** ** Orchestration *)

Record arguments : Type := {
  category_url : string;
  output : string;
  only_year : option Z;
  exclude_current_year : bool;
  local_html : option string
}.

(** What a run meets outside the script: the calendar year; for a URL,
    whether the request itself fails ([unreachable]: [sess.get] raises a
    connection error or a timeout, which is no [HTTPError]) and, when it
    does not, what the server answers ([fetch_url]: the page, or [None]
    for the error status that [raise_for_status] turns into an
    [HTTPError]); the local files ([None]: the file cannot be read); and
    the platform. Pages are given parsed. *)
Record world : Type := {
  now_year : Z;
  unreachable : string -> bool;
  fetch_url : string -> option node;
  read_text : string -> option node;
  host : Datetime.platform
}.

(** How a run ends: [sys.exit(code)]; the run reaching its last statement,
    which writes the document to the output path; or, before that, an
    exception that nothing catches, with nothing written. *)
Inductive outcome : Type :=
| Exit (code : Z)
| Written (path : string) (payload : Dict.dict page_summary)
| Raised.

(** The loop that leaves out the future years and, on request, the
    current one. *)
Definition keep_year (now_year : Z) (exclude_current_year : bool)
  (filtered : Dict.dict string) (item : Z * string) : Dict.dict string :=
  let (y, url) := item in
  if (y >? now_year)%Z then filtered
  else if exclude_current_year && (y =? now_year)%Z then filtered
  else Dict.set filtered y url.

Definition filter_years (now_year : Z) (exclude_current_year : bool)
  (year_links : Dict.dict string) : Dict.dict string :=
  fold_left (keep_year now_year exclude_current_year) year_links [].

(** [{y: url for (y, url) in year_links.items() if y == args.only_year}] *)
Definition restrict_to (only : option Z) (year_links : Dict.dict string) : Dict.dict string :=
  match only with
  | Some wanted => filter (fun item : Z * string => (fst item =? wanted)%Z) year_links
  | None => year_links
  end.

(** One turn of the loop over the years kept, for a request that the
    server answers: an [HTTPError] is caught and the year passed over. *)
Definition visit (w : world) (filtered : Dict.dict string)
  (results : Dict.dict page_summary) (y : Z) : Dict.dict page_summary :=
  let page_url := Dict.getitem "" filtered y in
  match fetch_url w page_url with
  | None => results
  | Some page => Dict.set results y (extract_page_summary (host w) page)
  end.

(** The loop over the years kept. Only [requests.HTTPError] is caught:
    [None] is a request that raises anything else, which ends the loop
    and the run. *)
Fixpoint visit_all (w : world) (filtered : Dict.dict string) (years : list Z)
  (results : Dict.dict page_summary) : option (Dict.dict page_summary) :=
  match years with
  | [] => Some results
  | y :: rest =>
      if unreachable w (Dict.getitem "" filtered y) then None
      else visit_all w filtered rest (visit w filtered results y)
  end.

(** [args.local_html] when it counts as given: there, and not empty. *)
Definition local_path (args : arguments) : option string :=
  match local_html args with
  | Some path => if truthy path then Some path else None
  | None => None
  end.

Definition main (w : world) (args : arguments) : outcome :=
  match local_path args with
  | Some path =>
      match only_year args with
      | None => Exit 2
      | Some y =>
          match read_text w path with
          | None => Raised
          | Some page =>
              Written (output args) [(y, extract_page_summary (host w) page)]
          end
      end
  | None =>
      if unreachable w (category_url args) then Raised
      else
        match fetch_url w (category_url args) with
        | None => Exit 1
        | Some cat =>
            let year_links := parse_year_links_from_category cat in
            let year_links := restrict_to (only_year args) year_links in
            let filtered :=
              filter_years (now_year w) (exclude_current_year args) year_links in
            let years_sorted := Dict.sorted (Dict.keys filtered) in
            match visit_all w filtered years_sorted [] with
            | Some results => Written (output args) results
            | None => Raised
            end
        end
  end.

(* ===================================================================== *)
(** * Notions the properties are stated with *)
(* ===================================================================== *)

(** A string that opens with [<] and closes with [>], as the markup of an
    element does. *)
Definition opens_lt (s : string) : Prop := exists r, s = String "<" r.
Definition closes_gt (s : string) : Prop := exists r, s = r ++ ">".
Definition bracketed (s : string) : Prop := opens_lt s /\ closes_gt s.

(** How many of the nodes are paragraph elements. *)
Definition count_paragraphs (nodes : list node) : nat :=
  length (filter (fun n => String.eqb (name_of n) "p") nodes).

(** The lead fragment and the stop node of a main region, and its section
    fragment when the scan resumes after [start_after]. *)
Definition lead_fragment (main_div : node) : string :=
  fst (fst (extract_opening_paragraphs main_div)).

Definition stop_node_of (main_div : node) : option node :=
  snd (extract_opening_paragraphs main_div).

Definition race_fragment (main_div : node) (start_after : option node) : string :=
  fst (extract_race_section_after main_div start_after).

(** The record of a page on which nothing could be read. *)
Definition empty_summary : page_summary := {| date := None; race_summary := "" |}.

(** ** Sample documents *)

Module Sample.

Definition heading2 (title : string) : node :=
  Tag "div" [("class", "mw-heading mw-heading2")]
    [Tag "h2" [("id", title)] [NavigableString title];
     Tag "span" [("class", "mw-editsection")] [NavigableString "[edit]"]].

Definition heading3 (title : string) : node :=
  Tag "div" [("class", "mw-heading mw-heading3")]
    [Tag "h3" [("id", title)] [NavigableString title]].

Definition para (text : string) : node := Tag "p" [] [NavigableString text].

(** An article body: a lead, a section before the race, the race section
    with a sub-section, and a section after it. *)
Definition article : node :=
  Tag "div" [("class", "mw-content-ltr mw-parser-output"); ("lang", "en")]
    [NavigableString " ";
     Tag "p" [("class", "mw-empty-elt")] [];
     para "The 2015 Mexican Grand Prix was a motor race.";
     heading2 "Background"; para "The circuit was rebuilt.";
     heading2 "Race"; para "Rosberg led from pole.";
     heading3 "Start"; para "Vettel had a puncture.";
     Tag "ul" [] [Tag "li" [] [NavigableString "71 laps"]];
     heading2 "Reactions"; para "The podium was loud."].

Definition page : node :=
  Tag "[document]" []
    [Tag "html" []
       [Tag "body" []
          [Tag "span" [("class", "bday dtstart"); ("datetime", "2015-11-01")] [];
           article]]].

(** A page with no main content region. *)
Definition bare_page : node :=
  Tag "[document]" []
    [Tag "html" [] [Tag "body" [] [Tag "div" [("class", "mw-parser-output")] [para "x"]]]].

(** An article with no section whose title begins with Race. *)
Definition quiet_article : node :=
  Tag "div" [("class", "mw-content-ltr mw-parser-output")]
    [para "A short lead."; heading2 "Background"; para "Nothing else.";
     heading3 "Tracer"; para "Not a race section."].

Definition quiet_page : node :=
  Tag "[document]" [] [Tag "html" [] [Tag "body" [] [quiet_article]]].

End Sample.

(** ** The lead, in the words of the specification *)

(** A level-2 heading boundary, as the heading classifier sees it. *)
Definition level2_boundary (n : node) : bool :=
  is_tag n && _is_heading_div n && same_level (_level_of_heading_div n) 2.

(** A paragraph element that carries no class attribute at all. *)
Definition unclassed_paragraph (n : node) : bool :=
  is_tag n && String.eqb (name_of n) "p" && negb (has_attr n "class").

(** A value made of blanks only, the empty value among them. *)
Definition blank (v : string) : bool := forallb isspace (list_ascii_of_string v).

(** A paragraph element whose class attribute is absent or holds no token. *)
Definition tokenless_paragraph (n : node) : bool :=
  is_tag n && String.eqb (name_of n) "p"
  && match get n "class" with
     | None => true
     | Some v => blank v
     end.

(** The children that come before the first level-2 heading boundary. *)
Fixpoint before_boundary (children : list node) : list node :=
  match children with
  | [] => []
  | x :: rest => if level2_boundary x then [] else x :: before_boundary rest
  end.

(** The lead as the specification words it, for a main region whose
    children are [pre], then the first level-2 boundary [b], then [post]:
    the markup of the paragraphs of [pre] with no class attribute, in
    order, and [b] handed back. *)
Definition lead_as_specified (main_div : node) : Prop :=
  forall pre b post,
    children main_div = (pre ++ b :: post)%list ->
    level2_boundary b = true ->
    (forall n, In n pre -> level2_boundary n = false) ->
    extract_opening_paragraphs main_div
    = (join blank_line (map decode (filter unclassed_paragraph pre)),
       length (filter unclassed_paragraph pre), Some b).

Module SampleLead.

(** A paragraph written [<p class="">...</p>]. *)
Definition blank_class_para : node :=
  Tag "p" [("class", "")] [NavigableString "Held in Mexico City."].

Definition article : node :=
  Tag "div" [("class", "mw-content-ltr mw-parser-output")]
    [Sample.para "The race was round 17."; blank_class_para;
     Tag "p" [("class", "mw-empty-elt")] [];
     Sample.heading2 "Race"; Sample.para "Rosberg won."].

End SampleLead.

(** ** The date, in the words of the specification *)

(** The value of attribute [key] on a node, when it has the shape of an
    ISO date. *)
Definition attr_hit (key : string) (n : node) : option string :=
  match get n key with
  | Some v => if Re.iso_match v then Some v else None
  | None => None
  end.

(** The lookup as the specification words it: any element whose datetime
    attribute has the shape, the first in document order; failing that,
    any element whose title has it. *)
Definition iso_date_as_specified (soup : node) : option string :=
  match first_some (attr_hit "datetime") (filter is_tag (descendants soup)) with
  | Some dt => Some dt
  | None => first_some (attr_hit "title") (filter is_tag (descendants soup))
  end.

(** The elements the first pass is meant for. *)
Definition time_or_span (n : node) : bool :=
  is_tag n && existsb (String.eqb (name_of n)) ["time"; "span"].

(** "Month D, Year", the day without a leading zero. *)
Definition long_form (dt : Datetime.datetime) : string :=
  Datetime.month_name (Datetime.month dt) ++ " " ++ Datetime.plain_day (Datetime.day dt)
  ++ ", " ++ Datetime.digits4 (Datetime.year dt).

(** "Month DD, Year", the day on two digits. *)
Definition padded_form (dt : Datetime.datetime) : string :=
  Datetime.month_name (Datetime.month dt) ++ " " ++ Datetime.digits2 (Datetime.day dt)
  ++ ", " ++ Datetime.digits4 (Datetime.year dt).

(** The date field as the specification words it: the long form of every
    ISO date that is found and converts. *)
Definition date_as_specified (pf : Datetime.platform) (soup : node) : Prop :=
  forall iso dt,
    find_main_content_div soup <> None ->
    extract_iso_date soup = Some iso ->
    Datetime.strptime_Ymd iso = Some dt ->
    date (extract_page_summary pf soup) = Some (long_form dt).

Module SampleDate.

(** A page whose only datetime attribute sits on a [del] element, and
    whose [abbr] has a date for a title. *)
Definition revised_page : node :=
  Tag "[document]" []
    [Tag "html" []
       [Tag "body" []
          [Tag "del" [("datetime", "2015-11-01")] [NavigableString "1 November"];
           Tag "abbr" [("title", "2015-10-31")] [NavigableString "Sat"]]]].

(** A page whose [time] element has the date and no class attribute. *)
Definition plain_time_page : node :=
  Tag "[document]" []
    [Tag "html" []
       [Tag "body" []
          [Tag "time" [("datetime", "2015-11-01")] [NavigableString "1 November 2015"]]]].

End SampleDate.

(** ** Category discovery and the year filter, in the words of the specification *)

(** The anchors the discovery loop goes over, in document order. *)
Definition anchors (soup : node) : list node :=
  select_tag_attr_prefix "a" "href" "/wiki/" soup.

(** The target of the first anchor that qualifies for year [y]. *)
Definition first_link_for (y : Z) (candidates : list node) : option string :=
  first_some (fun a => match year_link_of a with
                       | Some (y', href) => if (y' =? y)%Z then Some href else None
                       | None => None
                       end) candidates.

(** A year that the eligibility policy lets through. *)
Definition eligible (now_year : Z) (exclude_current_year : bool) (item : Z * string) : bool :=
  (fst item <=? now_year)%Z && negb (exclude_current_year && (fst item =? now_year)%Z).

(** What one year contributes to the output: its summary, if its page
    is served. *)
Definition visited (w : world) (filtered : Dict.dict string) (y : Z)
  : option (Z * page_summary) :=
  match fetch_url w (Dict.getitem "" filtered y) with
  | Some page => Some (y, extract_page_summary (host w) page)
  | None => None
  end.

Module SampleRun.

Definition link (href text : string) : node :=
  Tag "li" [] [Tag "a" [("href", href); ("title", text)] [NavigableString text]].

(** A category page: two anchors for 2014, a talk page, a year to come,
    an older year listed last. *)
Definition category : node :=
  Tag "[document]" []
    [Tag "html" []
       [Tag "body" []
          [Tag "ul" []
             [link "/wiki/2014_Mexican_Grand_Prix" "2014 Mexican Grand Prix";
              link "/wiki/2014_Mexican_Grand_Prix_(GP2)" "2014 Mexican GP";
              link "/wiki/Talk:2014_Mexican_Grand_Prix" "Talk:2014 Mexican Grand Prix";
              link "/wiki/2015_Mexican_Grand_Prix" "2015 Mexican Grand Prix";
              link "/wiki/2016_Mexican_Grand_Prix" "2016 Mexican Grand Prix";
              link "/wiki/1990_Mexican_Grand_Prix" "1990 Mexican Grand Prix"]]]].

Definition category_address : string :=
  "https://en.wikipedia.org/wiki/Category:Mexican_Grand_Prix".

(** A run in 2015: the category page and the page of 2015 are served,
    the other pages are not. *)
Definition world_2015 : world :=
  {| now_year := 2015;
     unreachable := fun _ => false;
     fetch_url := fun url =>
       if String.eqb url category_address then Some category
       else if String.eqb url "https://en.wikipedia.org/wiki/2015_Mexican_Grand_Prix"
            then Some Sample.page
            else None;
     read_text := fun _ => Some Sample.bare_page;
     host := Datetime.unix |}.

Definition remote_run : arguments :=
  {| category_url := category_address;
     output := "out.json";
     only_year := None;
     exclude_current_year := false;
     local_html := None |}.

(** The same run with [--exclude-current-year]. *)
Definition remote_run_excluding : arguments :=
  {| category_url := category_address;
     output := "out.json";
     only_year := None;
     exclude_current_year := true;
     local_html := None |}.

(** A world in which every address serves a page with no main region. *)
Definition bare_world : world :=
  {| now_year := 2015;
     unreachable := fun _ => false;
     fetch_url := fun _ => Some Sample.bare_page;
     read_text := fun _ => Some Sample.bare_page;
     host := Datetime.unix |}.

End SampleRun.


(* ===================================================================== *)
(** * The run with its requests *)
(* ===================================================================== *)

(** What a run does to the network: a GET of a URL, and the polite pause
    that [fetch_url] makes after a response that was not an error. *)
Inductive event : Type :=
| Get (url : string)
| Sleep.

(** How a call of [fetch_url] ends. *)
Inductive fetched : Type :=
| Page (page : node)
| HTTPError
| Uncaught.

(** [fetch_url(url, sleep_sec)] with what it does: the request; then, when
    the request has come through and [raise_for_status] has not raised,
    the pause if [sleep_sec > 0] ([pause] is that test). *)
Definition fetch_url_io (w : world) (pause : bool) (url : string)
  : fetched * list event :=
  if unreachable w url then (Uncaught, [Get url])
  else
    match fetch_url w url with
    | Some page => (Page page, Get url :: (if pause then [Sleep] else []))
    | None => (HTTPError, [Get url])
    end.

(** The loop over the years kept, with its events: an [HTTPError] is
    caught and the loop goes on, anything else ends it. *)
Fixpoint visit_all_io (w : world) (pause : bool) (filtered : Dict.dict string)
  (years : list Z) (results : Dict.dict page_summary) (trace : list event)
  : option (Dict.dict page_summary) * list event :=
  match years with
  | [] => (Some results, trace)
  | y :: rest =>
      let page_url := Dict.getitem "" filtered y in
      match fetch_url_io w pause page_url with
      | (Page page, events) =>
          visit_all_io w pause filtered rest
            (Dict.set results y (extract_page_summary (host w) page))
            (trace ++ events)%list
      | (HTTPError, events) =>
          visit_all_io w pause filtered rest results (trace ++ events)%list
      | (Uncaught, events) => (None, (trace ++ events)%list)
      end
  end.

(** [main] with the events of the run, in order. *)
Definition main_io (w : world) (pause : bool) (args : arguments)
  : outcome * list event :=
  match local_path args with
  | Some path =>
      match only_year args with
      | None => (Exit 2, [])
      | Some y =>
          match read_text w path with
          | None => (Raised, [])
          | Some page =>
              (Written (output args) [(y, extract_page_summary (host w) page)], [])
          end
      end
  | None =>
      match fetch_url_io w pause (category_url args) with
      | (Uncaught, events) => (Raised, events)
      | (HTTPError, events) => (Exit 1, events)
      | (Page cat, events) =>
          let year_links := parse_year_links_from_category cat in
          let year_links := restrict_to (only_year args) year_links in
          let filtered := filter_years (now_year w) (exclude_current_year args) year_links in
          let years_sorted := Dict.sorted (Dict.keys filtered) in
          match visit_all_io w pause filtered years_sorted [] events with
          | (Some results, trace) => (Written (output args) results, trace)
          | (None, trace) => (Raised, trace)
          end
      end
  end.

(** The events of fetching one URL. *)
Definition events_of_fetch (w : world) (pause : bool) (url : string) : list event :=
  snd (fetch_url_io w pause url).

(** The years a remote run keeps, given the category page it was served. *)
Definition kept_years (w : world) (args : arguments) (cat : node) : Dict.dict string :=
  filter_years (now_year w) (exclude_current_year args)
    (restrict_to (only_year args) (parse_year_links_from_category cat)).

(** The URLs requested in a trace, in order, and the number of pauses. *)
Definition requests (trace : list event) : list string :=
  filter_map (fun e => match e with Get url => Some url | Sleep => None end) trace.

Definition pauses (trace : list event) : nat :=
  length (filter (fun e => match e with Sleep => true | Get _ => false end) trace).

(** The requests among [urls] that are answered with a page. *)
Definition answered (w : world) (urls : list string) : list string :=
  filter (fun url => negb (unreachable w url)
                     && match fetch_url w url with Some _ => true | None => false end) urls.

(** The requests that are made out of [urls], asked for in turn: all of
    them up to the first that cannot be reached, that one included. *)
Fixpoint attempted (w : world) (urls : list string) : list string :=
  match urls with
  | [] => []
  | url :: rest => if unreachable w url then [url] else url :: attempted w rest
  end.

(** The URLs of the pages of the years kept, by ascending year. *)
Definition page_urls (filtered : Dict.dict string) : list string :=
  map (Dict.getitem "" filtered) (Dict.sorted (Dict.keys filtered)).

(** The URLs a remote run means to ask for: the category page, then the
    pages of the years kept if the category page is served. *)
Definition planned_urls (w : world) (args : arguments) : list string :=
  category_url args
  :: match fetch_url w (category_url args) with
     | Some cat => page_urls (kept_years w args cat)
     | None => []
     end.

(** The year policy as the specification words it, for a remote run that
    writes its document: a year above the current one is not in the
    output; with the flag, nor is the current one; without it, the current
    year is in the output if it was discovered. *)
Definition year_policy_as_specified (w : world) (args : arguments) : Prop :=
  forall cat path payload,
    local_path args = None ->
    fetch_url w (category_url args) = Some cat ->
    main w args = Written path payload ->
    (forall y, (y > now_year w)%Z -> ~ In y (Dict.keys payload))
    /\ (exclude_current_year args = true -> ~ In (now_year w) (Dict.keys payload))
    /\ (exclude_current_year args = false ->
        In (now_year w)
          (Dict.keys (restrict_to (only_year args) (parse_year_links_from_category cat))) ->
        In (now_year w) (Dict.keys payload)).

(** ** Further notions *)

(** A class token: not empty, and with no blank in it. *)
Definition is_token (s : string) : bool :=
  truthy s && forallb (fun c => negb (isspace c)) (list_ascii_of_string s).

Definition no_blank (s : string) : bool :=
  forallb (fun c => negb (isspace c)) (list_ascii_of_string s).

(** The heading text has a line feed with something after it. *)
Definition broken_line (txt : string) : Prop :=
  exists a b, txt = a ++ String LF b /\ b <> "".

(** Four characters that read 19dd or 20dd. *)
Definition year_digits (g : string) : bool :=
  match g with
  | String a (String b (String c (String d EmptyString))) =>
      ((Ascii.eqb a "1" && Ascii.eqb b "9") || (Ascii.eqb a "2" && Ascii.eqb b "0"))
      && isdigit c && isdigit d
  | _ => false
  end.

(** Nothing, or something that ends outside a word. *)
Definition ends_outside_word (pre : string) : Prop :=
  pre = "" \/ exists p c, pre = p ++ String c "" /\ isword c = false.

(** Nothing, or something that begins outside a word. *)
Definition starts_outside_word (post : string) : Prop :=
  match post with
  | EmptyString => True
  | String c _ => isword c = false
  end.

(** [g] stands in [text] as a year and as a whole word, after [pre]. *)
Definition whole_word_year_at (text pre g : string) : Prop :=
  exists post,
    text = pre ++ g ++ post
    /\ year_digits g = true
    /\ ends_outside_word pre
    /\ starts_outside_word post.

(** An [h2] or [h3] element. *)
Definition is_title_tag (c : node) : bool :=
  is_tag c && (String.eqb (name_of c) "h2" || String.eqb (name_of c) "h3").

(** A string with no blank at either end. *)
Definition trimmed (s : string) : Prop := strip s = s.

(** A string that is not empty, begins with a character that is no blank,
    and has nothing for [rstrip] to take off. *)
Definition tight (s : string) : Prop :=
  (exists c r, s = String c r /\ isspace c = false) /\ rstrip s = s.

Module SampleMore.

(** An article with no level-2 heading at all. *)
Definition stub_article : node :=
  Tag "div" [("class", "mw-content-ltr mw-parser-output")]
    [Sample.para "Only a lead."; NavigableString " ";
     Tag "table" [("class", "infobox")] [];
     Sample.para "And a second paragraph."].

(** An article whose first level-2 heading is the race heading itself. *)
Definition race_first_article : node :=
  Tag "div" [("class", "mw-content-ltr mw-parser-output")]
    [Sample.para "A lead."; Sample.heading2 "Race";
     Sample.para "The race went by."; Sample.heading2 "Aftermath";
     Sample.para "Nothing more."].

(** A heading whose class tokens come in another order and with more
    blanks between them. *)
Definition spaced_heading : node :=
  Tag "div" [("class", "  mw-heading   mw-heading2 ")] [Tag "h2" [] [NavigableString "Race"]].

Definition swapped_heading : node :=
  Tag "div" [("class", "mw-heading2 mw-heading")] [Tag "h2" [] [NavigableString "Race"]].

(** A page whose date has a line feed at its end. *)
Definition trailing_newline_page : node :=
  Tag "[document]" []
    [Tag "html" []
       [Tag "body" []
          [Tag "span" [("class", "bday"); ("datetime", "2015-11-01" ++ String LF "")] [];
           Sample.article]]].

(** A local run for a year to come. *)
Definition local_run : arguments :=
  {| category_url := SampleRun.category_address;
     output := "one.json";
     only_year := Some 2031%Z;
     exclude_current_year := true;
     local_html := Some "saved.html" |}.

(** A remote run for the year 2014 only. *)
Definition only_2014 : arguments :=
  {| category_url := SampleRun.category_address;
     output := "out.json";
     only_year := Some 2014%Z;
     exclude_current_year := false;
     local_html := None |}.

(** A world in which the category page and every page are served. *)
Definition open_world : world :=
  {| now_year := 2015;
     unreachable := fun _ => false;
     fetch_url := fun url =>
       if String.eqb url SampleRun.category_address then Some SampleRun.category
       else Some Sample.page;
     read_text := fun _ => Some Sample.page;
     host := Datetime.unix |}.

(** A heading with blanks and line feeds around its title, and an edit
    link beside it. *)
Definition padded_heading : node :=
  Tag "div" [("class", "mw-heading mw-heading2")]
    [NavigableString (String LF "  ");
     Tag "h2" [] [NavigableString (String LF "   Race "); Tag "i" [] [NavigableString " report "]];
     Tag "span" [("class", "mw-editsection")] [NavigableString "[edit]"]].

(** A run in 2014 in which the category page is served and the page of
    2014 answers with an error status. *)
Definition world_2014 : world :=
  {| now_year := 2014;
     unreachable := fun _ => false;
     fetch_url := fun url =>
       if String.eqb url SampleRun.category_address then Some SampleRun.category
       else if String.eqb url "https://en.wikipedia.org/wiki/1990_Mexican_Grand_Prix"
            then Some Sample.page
            else None;
     read_text := fun _ => None;
     host := Datetime.unix |}.

(** A run in 2015 in which the page of 1990 answers with an error status
    and the page of 2014 cannot be reached. *)
Definition broken_world : world :=
  {| now_year := 2015;
     unreachable := fun url =>
       String.eqb url "https://en.wikipedia.org/wiki/2014_Mexican_Grand_Prix";
     fetch_url := fun url =>
       if String.eqb url SampleRun.category_address then Some SampleRun.category
       else if String.eqb url "https://en.wikipedia.org/wiki/1990_Mexican_Grand_Prix"
            then None
            else Some Sample.page;
     read_text := fun _ => None;
     host := Datetime.unix |}.

End SampleMore.

(* ===================================================================== *)
(** * Facts about strings and markup *)
(* ===================================================================== *)

Section StringFacts.

Lemma app_assoc_str (a b c : string) : (a ++ b) ++ c = a ++ (b ++ c).
Proof.
  induction a as [|x a IH]; simpl; [reflexivity | now rewrite IH].
Qed.

Lemma rstrip_keeps_last (m : string) (c : ascii) :
  isspace c = false ->
  rstrip (m ++ String c "") = m ++ String c "".
Proof.
  intros Hc. induction m as [|x m IH]; simpl.
  - now rewrite Hc.
  - rewrite IH. destruct m; reflexivity.
Qed.

Lemma strip_bracketed (s : string) : bracketed s -> strip s = s.
Proof.
  intros [[r Hr] [m Hm]]. unfold strip.
  assert (Hl : lstrip s = s) by (subst s; reflexivity).
  rewrite Hl, Hm. now apply rstrip_keeps_last.
Qed.

Lemma bracketed_truthy (s : string) : bracketed s -> truthy s = true.
Proof. intros [[r ->] _]. reflexivity. Qed.

Lemma bracketed_glue (a sep b : string) :
  bracketed a -> bracketed b -> bracketed (a ++ sep ++ b).
Proof.
  intros [[ra Ha] _] [_ [mb Hb]]. split.
  - exists (ra ++ sep ++ b). now rewrite Ha.
  - exists (a ++ sep ++ mb). rewrite Hb. now rewrite !app_assoc_str.
Qed.

Lemma join_bracketed (sep : string) (parts : list string) :
  parts <> [] -> Forall bracketed parts -> bracketed (join sep parts).
Proof.
  induction parts as [|p ps IH]; intros Hne Hall; [congruence|].
  inversion Hall as [|? ? Hp Hps]; subst.
  destruct ps as [|q ps]; simpl; [assumption|].
  apply bracketed_glue; [assumption|].
  apply IH; [discriminate | assumption].
Qed.

(** A joined fragment is empty exactly when nothing was collected. *)
Lemma fragment_truthy (sep : string) (parts : list string) :
  Forall bracketed parts ->
  truthy (join sep parts) = match parts with [] => false | _ => true end.
Proof.
  intros Hall. destruct parts as [|p ps]; [reflexivity|].
  apply bracketed_truthy, join_bracketed; [discriminate | assumption].
Qed.

Lemma fragment_strip (sep : string) (parts : list string) :
  Forall bracketed parts -> strip (join sep parts) = join sep parts.
Proof.
  intros Hall. destruct parts as [|p ps]; [reflexivity|].
  apply strip_bracketed, join_bracketed; [discriminate | assumption].
Qed.

(** The markup of an element is bracketed. *)
Lemma full_markup_bracketed (opening inner name : string) :
  bracketed (String "<" ((opening ++ ">" ++ inner ++ "</" ++ name) ++ ">")).
Proof.
  split; [eexists; reflexivity|].
  exists (String "<" (opening ++ ">" ++ inner ++ "</" ++ name)). reflexivity.
Qed.

Lemma void_markup_bracketed (opening : string) :
  bracketed (String "<" (opening ++ "/>")).
Proof.
  split; [eexists; reflexivity|].
  exists (String "<" (opening ++ "/")). simpl. f_equal.
  now rewrite app_assoc_str.
Qed.

Lemma decode_tag_bracketed (n : node) : is_tag n = true -> bracketed (decode n).
Proof.
  destruct n as [s | name attrs contents]; [discriminate|]. intros _.
  cbn [decode].
  destruct contents; [destruct (existsb _ void_elements)|];
    first [apply void_markup_bracketed | apply full_markup_bracketed].
Qed.

End StringFacts.

(** ** What the two scans collect *)

Lemma opening_scan_bracketed (l : list node) :
  Forall bracketed (fst (fst (opening_scan l))).
Proof.
  induction l as [|child rest IH]; simpl; [constructor|].
  destruct (is_tag child) eqn:Htag; simpl; [|assumption].
  destruct (is_h2_stop child); simpl; [constructor|].
  destruct (opening_scan rest) as [[parts n] stop]; simpl in *.
  destruct (is_lead_paragraph child); simpl; [|assumption].
  constructor; [now apply decode_tag_bracketed | assumption].
Qed.

Lemma capture_bracketed (lvl : Z) (l : list node) :
  Forall (fun n => is_tag n = true) l ->
  Forall bracketed (fst (capture lvl l)).
Proof.
  induction l as [|x rest IH]; intros Hall; simpl; [constructor|].
  inversion Hall as [|? ? Hx Hrest]; subst.
  destruct (_is_heading_div x && same_level (_level_of_heading_div x) lvl); simpl; [constructor|].
  specialize (IH Hrest). destruct (capture lvl rest) as [parts n]; simpl in *.
  constructor; [now apply decode_tag_bracketed | assumption].
Qed.

Lemma Forall_skipn {A : Type} (P : A -> Prop) (n : nat) (l : list A) :
  Forall P l -> Forall P (skipn n l).
Proof.
  revert l. induction n as [|n IH]; intros l H; [assumption|].
  destruct l; simpl; [constructor|]. inversion H; subst. now apply IH.
Qed.

Lemma element_children_tags (main_div : node) :
  Forall (fun n => is_tag n = true) (element_children main_div).
Proof.
  unfold element_children. apply Forall_forall. intros x Hx.
  now apply filter_In in Hx.
Qed.

(** The lead fragment is empty or bracketed markup; so is the section. *)
Lemma lead_fragment_parts (main_div : node) :
  exists parts, Forall bracketed parts
    /\ fst (fst (extract_opening_paragraphs main_div)) = join blank_line parts.
Proof.
  unfold extract_opening_paragraphs.
  pose proof (opening_scan_bracketed (children main_div)) as H.
  destruct (opening_scan (children main_div)) as [[parts n] stop]; simpl in *.
  now exists parts.
Qed.

Lemma race_fragment_parts (main_div : node) (start_after : option node) :
  exists parts, Forall bracketed parts
    /\ fst (extract_race_section_after main_div start_after) = join blank_line parts.
Proof.
  unfold extract_race_section_after.
  destruct (locate_race_heading _ _) as [[idx [lvl|]]|];
    try (exists []; split; [constructor | reflexivity]).
  pose proof (capture_bracketed lvl (skipn (idx + 1) (element_children main_div))
                (Forall_skipn _ _ _ (element_children_tags main_div))) as H.
  destruct (capture lvl _) as [parts n]; simpl in *.
  now exists parts.
Qed.

(** Stripping leaves both fragments as they are, so the parts that are
    glued are the fragments that are not empty. *)
Lemma combined_parts_fragments (lead_html race_html : string) :
  (exists parts, Forall bracketed parts /\ lead_html = join blank_line parts) ->
  (exists parts, Forall bracketed parts /\ race_html = join blank_line parts) ->
  combined_parts lead_html race_html = filter truthy [lead_html; race_html].
Proof.
  intros [pl [Hl ->]] [pr [Hr ->]]. unfold combined_parts.
  rewrite !fragment_strip by assumption. simpl.
  destruct (truthy (join blank_line pl)), (truthy (join blank_line pr)); reflexivity.
Qed.

(* ===================================================================== *)
(** * The page summary *)
(* ===================================================================== *)

Lemma race_summary_of_page (pf : Datetime.platform) (soup main_div : node) :
  find_main_content_div soup = Some main_div ->
  race_summary (extract_page_summary pf soup)
  = join blank_line
      (filter truthy [lead_fragment main_div;
                      race_fragment main_div (stop_node_of main_div)]).
Proof.
  intros Hmain. unfold extract_page_summary. rewrite Hmain.
  unfold lead_fragment, race_fragment, stop_node_of.
  pose proof (lead_fragment_parts main_div) as Hl.
  destruct (extract_opening_paragraphs main_div) as [[lead_html i_count] stop_node].
  pose proof (race_fragment_parts main_div stop_node) as Hr. simpl in Hl, Hr |- *.
  destruct (extract_race_section_after main_div stop_node) as [race_html j_count].
  simpl in Hr |- *. now rewrite combined_parts_fragments.
Qed.

(** C4. For every document, [race_summary] is the lead fragment and the
    race-section fragment joined by a blank line, an empty fragment left
    out of the join; it is the empty string when both are empty (and when
    there is no main region to take fragments from). *)
Theorem race_summary_joins_fragments (pf : Datetime.platform) (soup : node) :
  match find_main_content_div soup with
  | Some main_div =>
      let lead := lead_fragment main_div in
      let race := race_fragment main_div (stop_node_of main_div) in
      race_summary (extract_page_summary pf soup)
      = match lead, race with
        | EmptyString, EmptyString => ""
        | EmptyString, _ => race
        | _, EmptyString => lead
        | _, _ => lead ++ blank_line ++ race
        end
  | None => race_summary (extract_page_summary pf soup) = ""
  end.
Proof.
  destruct (find_main_content_div soup) as [main_div|] eqn:Hmain.
  - cbv zeta. rewrite (race_summary_of_page pf soup main_div Hmain).
    destruct (lead_fragment main_div), (race_fragment main_div _); reflexivity.
  - unfold extract_page_summary. now rewrite Hmain.
Qed.

(** The sample page from end to end: the lead paragraph, then the race
    section with its sub-section, and nothing of what follows the next
    level-2 heading. *)
Example page_summary_sample :
  extract_page_summary Datetime.unix Sample.page
  = {| date := Some "November 1, 2015";
       race_summary :=
         join blank_line
           (map decode
              [Sample.para "The 2015 Mexican Grand Prix was a motor race.";
               Sample.para "Rosberg led from pole."; Sample.heading3 "Start";
               Sample.para "Vettel had a puncture.";
               Tag "ul" [] [Tag "li" [] [NavigableString "71 laps"]]]) |}.
Proof. reflexivity. Qed.

Example markup_sample :
  decode (Sample.para "Rosberg led from pole.") = "<p>Rosberg led from pole.</p>"
  /\ decode (Tag "br" [] []) = "<br/>"
  /\ decode (Tag "td" [] [NavigableString "a < b & c"]) = "<td>a &lt; b &amp; c</td>".
Proof. repeat split. Qed.

(** C9. When the selector of the main content region finds no container,
    the page yields the record with a null date and an empty summary; the
    run goes on, and files that record under the year of the page. *)
Theorem missing_main_region_yields_empty_record
  (pf : Datetime.platform) (soup : node) :
  find_main_content_div soup = None ->
  extract_page_summary pf soup = empty_summary
  /\ forall (w : world) (filtered : Dict.dict string)
            (results : Dict.dict page_summary) (y : Z),
       host w = pf ->
       fetch_url w (Dict.getitem "" filtered y) = Some soup ->
       visit w filtered results y = Dict.set results y empty_summary.
Proof.
  intros Hnone.
  assert (H : extract_page_summary pf soup = empty_summary)
    by (unfold extract_page_summary; now rewrite Hnone).
  split; [exact H|].
  intros w filtered results y Hpf Hfetch. unfold visit.
  now rewrite Hfetch, Hpf, H.
Qed.

Lemma missing_main_region_sample :
  extract_page_summary Datetime.unix Sample.bare_page = empty_summary
  /\ visit SampleRun.bare_world [(2015%Z, "https://en.wikipedia.org/wiki/2015_Mexican_Grand_Prix")]
       [] 2015%Z
     = [(2015%Z, empty_summary)].
Proof.
  destruct (missing_main_region_yields_empty_record Datetime.unix Sample.bare_page eq_refl)
    as [Hrecord Hvisit].
  split; [exact Hrecord|].
  apply (Hvisit SampleRun.bare_world
           [(2015%Z, "https://en.wikipedia.org/wiki/2015_Mexican_Grand_Prix")] [] 2015%Z);
    reflexivity.
Defined.

(* ===================================================================== *)
(** * The section scan *)
(* ===================================================================== *)

Section SectionScan.

Lemma heading_level_2_or_3 (n : node) :
  _is_heading_div n = true ->
  _level_of_heading_div n = Some 2%Z \/ _level_of_heading_div n = Some 3%Z.
Proof.
  unfold _is_heading_div, _level_of_heading_div.
  destruct (negb (String.eqb (name_of n) "div")); [discriminate|].
  destruct (String.eqb _ H2_DIV_CLASS); [now left|].
  destruct (String.eqb _ H3_DIV_CLASS); [now right | discriminate].
Qed.

(** The regular expression asks for the prefix, and for more. *)
Lemma race_match_prefix (txt : string) :
  Re.race_match txt = true -> Re.race_prefix txt = true.
Proof.
  unfold Re.race_match.
  destruct txt as [|r [|a [|c [|e rest]]]]; try discriminate.
  intros H. now apply andb_true_iff in H.
Qed.

Lemma locate_none (l : list node) (i : nat) :
  (forall n, In n l -> _is_heading_div n = true ->
             Re.race_match (_heading_text_from_div n) = false) ->
  locate_race_heading i l = None.
Proof.
  revert i. induction l as [|x l IH]; intros i H; simpl; [reflexivity|].
  destruct (_is_heading_div x) eqn:Hx; simpl.
  - rewrite (H x (or_introl eq_refl) Hx). apply IH. intros n Hn. apply H. now right.
  - apply IH. intros n Hn. apply H. now right.
Qed.

Lemma locate_first (l1 l2 : list node) (h : node) (i : nat) :
  (forall n, In n l1 -> _is_heading_div n = true ->
             Re.race_match (_heading_text_from_div n) = false) ->
  _is_heading_div h = true ->
  Re.race_match (_heading_text_from_div h) = true ->
  locate_race_heading i (l1 ++ h :: l2)%list
  = Some (i + length l1, _level_of_heading_div h).
Proof.
  intros H Hh Hm. revert i. induction l1 as [|x l1 IH]; intros i; simpl.
  - rewrite Hh, Hm. simpl. now rewrite Nat.add_0_r.
  - assert (Hrest : forall n, In n l1 -> _is_heading_div n = true ->
                              Re.race_match (_heading_text_from_div n) = false)
      by (intros n Hn; apply H; now right).
    destruct (_is_heading_div x) eqn:Hx; simpl.
    + rewrite (H x (or_introl eq_refl) Hx), (IH Hrest). f_equal. f_equal. lia.
    + rewrite (IH Hrest). f_equal. f_equal. lia.
Qed.

Lemma same_level_other (lvl : option Z) (L : Z) :
  lvl <> Some L -> same_level lvl L = false.
Proof.
  destruct lvl as [l|]; simpl; [|reflexivity].
  intros H. apply Z.eqb_neq. congruence.
Qed.

Lemma same_level_refl (L : Z) : same_level (Some L) L = true.
Proof. simpl. apply Z.eqb_refl. Qed.

Lemma capture_until_fence (L : Z) (mid rest : list node) :
  (forall n, In n mid -> _is_heading_div n = true -> _level_of_heading_div n <> Some L) ->
  (rest = [] \/ exists t rest', rest = t :: rest' /\ _is_heading_div t = true
                                /\ _level_of_heading_div t = Some L) ->
  capture L (mid ++ rest)%list = (map decode mid, count_paragraphs mid).
Proof.
  intros Hmid Hrest. induction mid as [|x mid IH]; simpl.
  - destruct Hrest as [-> | (t & rest' & -> & Ht & Hl)]; [reflexivity|].
    simpl. now rewrite Ht, Hl, same_level_refl.
  - assert (Hx : _is_heading_div x && same_level (_level_of_heading_div x) L = false).
    { destruct (_is_heading_div x) eqn:E; [|reflexivity]. simpl.
      apply same_level_other, Hmid; [now left | assumption]. }
    rewrite Hx, IH by (intros n Hn; apply Hmid; now right).
    unfold count_paragraphs. simpl.
    destruct (String.eqb (name_of x) "p"); reflexivity.
Qed.

Lemma skipn_prefix {A : Type} (n : nat) (l1 l2 : list A) :
  n <= length l1 -> skipn n (l1 ++ l2)%list = (skipn n l1 ++ l2)%list.
Proof.
  intros H. rewrite skipn_app.
  replace (n - length l1) with 0 by lia. reflexivity.
Qed.

Lemma skipn_past {A : Type} (l1 l2 : list A) (x : A) :
  skipn (length l1 + 1) (l1 ++ x :: l2)%list = l2.
Proof.
  induction l1 as [|y l1 IH]; simpl; [reflexivity | assumption].
Qed.

End SectionScan.

(** C1. Once the heading [h] that matches Race is found, with fence level
    [L] (2 or 3), the element children after it are captured in order up
    to the first heading boundary of level [L], which is left out with all
    that follows; [mid], the captured run, may hold heading boundaries of
    the other level, and they are captured like any other node. *)
Theorem race_section_runs_to_same_level_heading
  (main_div : node) (start_after : option node)
  (pre : list node) (h : node) (mid rest : list node) (L : Z) :
  element_children main_div = (pre ++ h :: mid ++ rest)%list ->
  start_index (element_children main_div) start_after <= length pre ->
  (forall n,
      In n (skipn (start_index (element_children main_div) start_after) pre) ->
      _is_heading_div n = true ->
      Re.race_match (_heading_text_from_div n) = false) ->
  _is_heading_div h = true ->
  Re.race_match (_heading_text_from_div h) = true ->
  _level_of_heading_div h = Some L ->
  (forall n, In n mid -> _is_heading_div n = true -> _level_of_heading_div n <> Some L) ->
  (rest = [] \/ exists t rest', rest = t :: rest' /\ _is_heading_div t = true
                                /\ _level_of_heading_div t = Some L) ->
  (L = 2%Z \/ L = 3%Z)
  /\ extract_race_section_after main_div start_after
     = (join blank_line (map decode mid), count_paragraphs mid).
Proof.
  intros Hcs Hstart Hpre Hh Hm HL Hmid Hrest. split.
  - destruct (heading_level_2_or_3 h Hh) as [E|E]; rewrite E in HL;
      injection HL as <-; [now left | now right].
  - unfold extract_race_section_after.
    set (s := start_index (element_children main_div) start_after) in *.
    rewrite Hcs at 1. rewrite (skipn_prefix s pre _ Hstart).
    rewrite (locate_first _ _ h s Hpre Hh Hm), HL.
    rewrite length_skipn. replace (s + (length pre - s)) with (length pre) by lia.
    rewrite Hcs, skipn_past, (capture_until_fence L mid rest Hmid Hrest).
    reflexivity.
Qed.

(** The case the specification spells out: a level-2 Race heading, a
    level-3 sub-heading, more content, another level-2 heading. *)
Lemma race_section_sample :
  (2 = 2 \/ 2 = 3)%Z
  /\ extract_race_section_after Sample.article (Some (Sample.heading2 "Background"))
     = (join blank_line
          (map decode [Sample.para "Rosberg led from pole."; Sample.heading3 "Start";
                       Sample.para "Vettel had a puncture.";
                       Tag "ul" [] [Tag "li" [] [NavigableString "71 laps"]]]), 2).
Proof.
  apply (race_section_runs_to_same_level_heading
           Sample.article (Some (Sample.heading2 "Background"))
           [Tag "p" [("class", "mw-empty-elt")] [];
            Sample.para "The 2015 Mexican Grand Prix was a motor race.";
            Sample.heading2 "Background"; Sample.para "The circuit was rebuilt."]
           (Sample.heading2 "Race")
           [Sample.para "Rosberg led from pole."; Sample.heading3 "Start";
            Sample.para "Vettel had a puncture.";
            Tag "ul" [] [Tag "li" [] [NavigableString "71 laps"]]]
           [Sample.heading2 "Reactions"; Sample.para "The podium was loud."]
           2%Z).
  - reflexivity.
  - vm_compute. lia.
  - intros n Hn. vm_compute in Hn. destruct Hn as [<-|[]]. discriminate.
  - reflexivity.
  - reflexivity.
  - reflexivity.
  - intros n Hn. simpl in Hn.
    destruct Hn as [<-|[<-|[<-|[<-|[]]]]]; vm_compute; congruence.
  - right. exists (Sample.heading2 "Reactions"), [Sample.para "The podium was loud."].
    repeat split.
Defined.

(** C3. When no heading boundary from the start index on has a text with
    the prefix Race, in any letter case, the section scan returns the
    empty fragment and the count zero; and the summary of the page is then
    the lead fragment as [extract_opening_paragraphs] computed it. *)
Theorem no_race_heading_leaves_lead_alone
  (pf : Datetime.platform) (soup main_div : node) (start_after : option node) :
  (forall n,
      In n (skipn (start_index (element_children main_div) start_after)
                  (element_children main_div)) ->
      _is_heading_div n = true ->
      Re.race_prefix (_heading_text_from_div n) = false) ->
  extract_race_section_after main_div start_after = ("", 0)
  /\ (find_main_content_div soup = Some main_div ->
      start_after = stop_node_of main_div ->
      race_summary (extract_page_summary pf soup) = lead_fragment main_div).
Proof.
  intros Hnone.
  assert (Hempty : extract_race_section_after main_div start_after = ("", 0)).
  { unfold extract_race_section_after. rewrite locate_none; [reflexivity|].
    intros n Hn Hhead.
    destruct (Re.race_match (_heading_text_from_div n)) eqn:E; [|reflexivity].
    apply race_match_prefix in E. rewrite (Hnone n Hn Hhead) in E. discriminate. }
  split; [exact Hempty|].
  intros Hmain ->. rewrite (race_summary_of_page pf soup main_div Hmain).
  unfold race_fragment. rewrite Hempty. simpl.
  destruct (lead_fragment main_div); reflexivity.
Qed.

Lemma no_race_heading_sample :
  extract_race_section_after Sample.quiet_article (stop_node_of Sample.quiet_article) = ("", 0)
  /\ race_summary (extract_page_summary Datetime.unix Sample.quiet_page)
     = lead_fragment Sample.quiet_article.
Proof.
  destruct (no_race_heading_leaves_lead_alone Datetime.unix Sample.quiet_page
              Sample.quiet_article (stop_node_of Sample.quiet_article)) as [H1 H2].
  - intros n Hn. vm_compute in Hn.
    destruct Hn as [<-|[<-|[<-|[]]]]; vm_compute; congruence.
  - split; [exact H1|]. apply H2; reflexivity.
Defined.

(* ===================================================================== *)
(** * The lead scan *)
(* ===================================================================== *)

Section LeadScan.

Lemma truthy_snoc (cur : string) (c : ascii) : truthy (cur ++ String c "") = true.
Proof. destruct cur; reflexivity. Qed.

Lemma tokens_from_nil (s cur : string) :
  tokens_from cur s = [] <-> truthy cur = false /\ blank s = true.
Proof.
  revert cur. induction s as [|c s IH]; intros cur; simpl.
  - destruct (truthy cur); split; try tauto; try discriminate.
    intros [H _]; discriminate.
  - unfold blank in *. simpl. destruct (isspace c); simpl.
    + destruct (truthy cur) eqn:Hcur.
      * split; [discriminate | intros [H _]; discriminate].
      * rewrite IH. simpl. tauto.
    + rewrite IH, truthy_snoc. split; intros [H1 H2]; discriminate.
Qed.

Lemma tokens_nil_blank (v : string) :
  match tokens v with [] => true | _ :: _ => false end = blank v.
Proof.
  unfold tokens. pose proof (tokens_from_nil v "") as H.
  destruct (tokens_from "" v) eqn:E, (blank v) eqn:B; try reflexivity.
  - destruct H as [H _]. specialize (H eq_refl). destruct H; discriminate.
  - destruct H as [_ H]. specialize (H (conj eq_refl eq_refl)). discriminate.
Qed.

(** The test of the lead scan is the classifier's level-2 boundary. *)
Lemma is_h2_stop_boundary (n : node) :
  is_tag n = true -> is_h2_stop n = level2_boundary n.
Proof.
  intros Htag. unfold is_h2_stop, level2_boundary, _is_heading_div, _level_of_heading_div.
  rewrite Htag. simpl.
  destruct (String.eqb (name_of n) "div"); simpl; [|reflexivity].
  unfold has_attr, get_class_or_empty, get_class.
  destruct (get n "class") as [v|]; simpl.
  - destruct (String.eqb _ H2_DIV_CLASS); simpl; [reflexivity|].
    destruct (String.eqb _ H3_DIV_CLASS); reflexivity.
  - reflexivity.
Qed.

Lemma is_lead_paragraph_tokenless (n : node) :
  is_tag n = true -> is_lead_paragraph n = tokenless_paragraph n.
Proof.
  intros Htag. unfold is_lead_paragraph, tokenless_paragraph, class_truthy, get_class.
  rewrite Htag. simpl. f_equal.
  destruct (get n "class") as [v|]; simpl; [|reflexivity].
  rewrite <- tokens_nil_blank. destruct (tokens v); reflexivity.
Qed.

(** What the scan returns, for any list of children. *)
Lemma opening_scan_spec (l : list node) :
  opening_scan l
  = (map decode (filter tokenless_paragraph (before_boundary l)),
     length (filter tokenless_paragraph (before_boundary l)),
     find level2_boundary l).
Proof.
  induction l as [|x l IH]; simpl; [reflexivity|].
  destruct (is_tag x) eqn:Htag; simpl.
  - rewrite (is_h2_stop_boundary x Htag).
    destruct (level2_boundary x); [reflexivity|].
    rewrite IH, (is_lead_paragraph_tokenless x Htag). simpl.
    destruct (tokenless_paragraph x); reflexivity.
  - assert (Hb : level2_boundary x = false) by (unfold level2_boundary; now rewrite Htag).
    assert (Hp : tokenless_paragraph x = false) by (unfold tokenless_paragraph; now rewrite Htag).
    rewrite Hb. simpl. now rewrite Hp.
Qed.

Lemma before_boundary_split (pre : list node) (b : node) (post : list node) :
  (forall n, In n pre -> level2_boundary n = false) ->
  before_boundary (pre ++ b :: post)%list
  = (pre ++ (if level2_boundary b then [] else b :: before_boundary post))%list
  /\ find level2_boundary (pre ++ b :: post)%list
     = if level2_boundary b then Some b else find level2_boundary post.
Proof.
  intros Hpre. induction pre as [|x pre IH]; simpl.
  - destruct (level2_boundary b); split; reflexivity.
  - rewrite (Hpre x (or_introl eq_refl)).
    destruct IH as [IH1 IH2]; [intros n Hn; apply Hpre; now right|].
    now rewrite IH1, IH2.
Qed.

End LeadScan.

(** What the scan returns for a main region whose children are [pre],
    then the first level-2 heading boundary [b], then [post]: the markup
    of the paragraph elements of [pre] that pass [not child.get("class")],
    in document order, their number, and [b] itself, which is not part of
    the lead. *)
Lemma lead_scan_before_boundary
  (main_div : node) (pre : list node) (b : node) (post : list node) :
  children main_div = (pre ++ b :: post)%list ->
  level2_boundary b = true ->
  (forall n, In n pre -> level2_boundary n = false) ->
  extract_opening_paragraphs main_div
  = (join blank_line (map decode (filter tokenless_paragraph pre)),
     length (filter tokenless_paragraph pre), Some b).
Proof.
  intros Hcs Hb Hpre. unfold extract_opening_paragraphs.
  rewrite opening_scan_spec, Hcs.
  destruct (before_boundary_split pre b post Hpre) as [-> ->].
  rewrite Hb, app_nil_r. reflexivity.
Qed.

(** C2. On a page whose main region holds, before its first level-2
    heading, a paragraph written with an empty class attribute,
    [extract_opening_paragraphs] collects that paragraph: it carries a
    class attribute, it comes before the boundary, and the lead holds its
    markup, two paragraphs in all; the lead of the paragraphs with no class
    attribute, which the claim and the function's own description ask
    for, is another one. The boundary is handed back all the same. *)
Theorem lead_collects_paragraph_with_class_attribute :
  has_attr SampleLead.blank_class_para "class" = true
  /\ unclassed_paragraph SampleLead.blank_class_para = false
  /\ In SampleLead.blank_class_para (before_boundary (children SampleLead.article))
  /\ extract_opening_paragraphs SampleLead.article
     = (join blank_line
          (map decode [Sample.para "The race was round 17."; SampleLead.blank_class_para]),
        2, Some (Sample.heading2 "Race"))
  /\ extract_opening_paragraphs SampleLead.article
     <> (join blank_line
           (map decode
              (filter unclassed_paragraph (before_boundary (children SampleLead.article)))),
         length (filter unclassed_paragraph (before_boundary (children SampleLead.article))),
         Some (Sample.heading2 "Race")).
Proof.
  split; [reflexivity|]. split; [reflexivity|]. split; [simpl; tauto|]. split.
  - apply (lead_scan_before_boundary SampleLead.article
             [Sample.para "The race was round 17."; SampleLead.blank_class_para;
              Tag "p" [("class", "mw-empty-elt")] []]
             (Sample.heading2 "Race") [Sample.para "Rosberg won."]).
    + reflexivity.
    + reflexivity.
    + intros n Hn. simpl in Hn. destruct Hn as [<-|[<-|[<-|[]]]]; reflexivity.
  - vm_compute. discriminate.
Qed.

(** The lead as the claim words it is not what the scan returns there. *)
Lemma lead_as_specified_fails : ~ lead_as_specified SampleLead.article.
Proof.
  intros H.
  specialize (H [Sample.para "The race was round 17."; SampleLead.blank_class_para;
                 Tag "p" [("class", "mw-empty-elt")] []]
                (Sample.heading2 "Race") [Sample.para "Rosberg won."]
                eq_refl eq_refl).
  assert (Hpre : forall n,
             In n [Sample.para "The race was round 17."; SampleLead.blank_class_para;
                   Tag "p" [("class", "mw-empty-elt")] []] ->
             level2_boundary n = false).
  { intros n Hn. simpl in Hn. destruct Hn as [<-|[<-|[<-|[]]]]; reflexivity. }
  specialize (H Hpre). vm_compute in H. discriminate H.
Qed.

(** C10. A paragraph element among the children before the first level-2
    boundary is collected into the lead when its class attribute is there
    but holds no token, just as when it has no class attribute; it is
    passed over only when the class value holds a token. *)
Theorem blank_class_paragraph_is_collected
  (main_div : node) (pre : list node)
  (attrs : list (string * string)) (contents post : list node) :
  children main_div = (pre ++ Tag "p" attrs contents :: post)%list ->
  (forall n, In n pre -> level2_boundary n = false) ->
  let c := Tag "p" attrs contents in
  let before := filter tokenless_paragraph pre in
  let after := filter tokenless_paragraph (before_boundary post) in
  let collected :=
    (join blank_line (map decode (before ++ c :: after)%list),
     length before + 1 + length after, find level2_boundary post) in
  let passed_over :=
    (join blank_line (map decode (before ++ after)%list),
     length before + length after, find level2_boundary post) in
  match lookup "class" attrs with
  | None => extract_opening_paragraphs main_div = collected
  | Some v =>
      if blank v
      then extract_opening_paragraphs main_div = collected
      else extract_opening_paragraphs main_div = passed_over
  end.
Proof.
  intros Hcs Hpre. cbv zeta.
  set (c := Tag "p" attrs contents) in *.
  set (before := filter tokenless_paragraph pre).
  set (after := filter tokenless_paragraph (before_boundary post)).
  assert (Hc : level2_boundary c = false) by reflexivity.
  assert (Hscan : extract_opening_paragraphs main_div
                  = (join blank_line
                       (map decode (before ++ filter tokenless_paragraph [c] ++ after)%list),
                     length (before ++ filter tokenless_paragraph [c] ++ after)%list,
                     find level2_boundary post)).
  { unfold extract_opening_paragraphs. rewrite opening_scan_spec, Hcs.
    destruct (before_boundary_split pre c post Hpre) as [-> ->].
    rewrite Hc, filter_app.
    change (c :: before_boundary post) with ([c] ++ before_boundary post)%list.
    now rewrite filter_app. }
  assert (Htok : tokenless_paragraph c
                 = match lookup "class" attrs with None => true | Some v => blank v end)
    by reflexivity.
  rewrite Hscan. simpl filter. rewrite Htok.
  destruct (lookup "class" attrs) as [v|]; [destruct (blank v)|];
    simpl app; rewrite ?length_app; simpl length;
    try reflexivity; f_equal; f_equal; lia.
Qed.

Lemma blank_class_sample :
  extract_opening_paragraphs SampleLead.article
  = (join blank_line
       (map decode [Sample.para "The race was round 17."; SampleLead.blank_class_para]),
     1 + 1 + 0, Some (Sample.heading2 "Race")).
Proof.
  apply (blank_class_paragraph_is_collected SampleLead.article
           [Sample.para "The race was round 17."]
           [("class", "")] [NavigableString "Held in Mexico City."]
           [Tag "p" [("class", "mw-empty-elt")] [];
            Sample.heading2 "Race"; Sample.para "Rosberg won."]).
  - reflexivity.
  - intros n Hn. simpl in Hn. destruct Hn as [<-|[]]. reflexivity.
Defined.

(* ===================================================================== *)
(** * The date *)
(* ===================================================================== *)

Section DateLookup.

Lemma first_some_filter {A B : Type} (f : A -> option B) (p : A -> bool) (l : list A) :
  (forall x, In x l -> f x <> None -> p x = true) ->
  first_some f (filter p l) = first_some f l.
Proof.
  induction l as [|x l IH]; intros H; simpl; [reflexivity|].
  assert (Hl : forall y, In y l -> f y <> None -> p y = true)
    by (intros y Hy; apply H; now right).
  destruct (p x) eqn:Hp; simpl.
  - destruct (f x); [reflexivity | now apply IH].
  - destruct (f x) eqn:Hf.
    + rewrite H in Hp; [discriminate | now left | congruence].
    + now apply IH.
Qed.

Lemma filter_andb {A : Type} (p q : A -> bool) (l : list A) :
  filter (fun x => p x && q x) l = filter q (filter p l).
Proof.
  induction l as [|x l IH]; simpl; [reflexivity|].
  destruct (p x); simpl; [destruct (q x)|]; now rewrite IH.
Qed.

Lemma iso_match_truthy (s : string) : Re.iso_match s = true -> truthy s = true.
Proof. destruct s; [discriminate | reflexivity]. Qed.

Lemma datetime_hit_attr (n : node) : datetime_hit n = attr_hit "datetime" n.
Proof.
  unfold datetime_hit, attr_hit. destruct (get n "datetime") as [v|]; [|reflexivity].
  destruct (Re.iso_match v) eqn:E; [now rewrite (iso_match_truthy v E)|].
  now rewrite andb_false_r.
Qed.

Lemma first_some_ext {A B : Type} (f g : A -> option B) (l : list A) :
  (forall x, f x = g x) -> first_some f l = first_some g l.
Proof.
  intros H. induction l as [|x l IH]; simpl; [reflexivity|]. now rewrite H, IH.
Qed.

Lemma title_pass (soup : node) :
  first_some title_hit (find_all_with_attr "title" soup)
  = first_some (attr_hit "title") (descendants soup).
Proof.
  unfold find_all_with_attr.
  rewrite first_some_filter; [reflexivity|].
  intros x _ Hx. unfold title_hit, has_attr in *.
  destruct x as [s | name attrs contents]; simpl in *; [congruence|].
  destruct (lookup "title" attrs); [reflexivity | congruence].
Qed.

End DateLookup.

(** C5, as the code has it. On a document in which every [time] or [span]
    element with a datetime of the ISO shape also has a class attribute,
    [extract_iso_date] returns the datetime of the first [time] or [span]
    element, in document order, whose datetime has the shape; when there
    is none, the title of the first element of any kind whose title has
    the shape; and nothing when there is none either. A datetime on an
    element of another kind is not looked at. *)
Theorem iso_date_prefers_time_and_span (soup : node) :
  (forall n, In n (descendants soup) -> time_or_span n = true ->
             attr_hit "datetime" n <> None -> has_attr n "class" = true) ->
  extract_iso_date soup
  = match first_some (attr_hit "datetime") (filter time_or_span (descendants soup)) with
    | Some dt => Some dt
    | None => first_some (attr_hit "title") (descendants soup)
    end.
Proof.
  intros Hclass. unfold extract_iso_date.
  rewrite title_pass. unfold find_all_names_attrs_True.
  rewrite (filter_andb time_or_span (fun n => has_attr n "class")).
  rewrite (first_some_ext datetime_hit (attr_hit "datetime")) by apply datetime_hit_attr.
  rewrite first_some_filter; [reflexivity|].
  intros x Hx Hhit. apply filter_In in Hx as [Hin Hts]. now apply Hclass.
Qed.

Lemma iso_date_sample : extract_iso_date Sample.page = Some "2015-11-01".
Proof.
  rewrite (iso_date_prefers_time_and_span Sample.page); [reflexivity|].
  intros n Hn Hts Hhit. vm_compute in Hn.
  repeat (destruct Hn as [<-|Hn]; [try reflexivity; try discriminate Hts;
                                   exfalso; apply Hhit; reflexivity|]).
  destruct Hn.
Defined.

(** C5 as it is worded fails on a page whose datetime sits on an element
    that is neither [time] nor [span]: the code passes it by and takes the
    title. *)
Lemma iso_date_as_specified_fails :
  iso_date_as_specified SampleDate.revised_page = Some "2015-11-01"
  /\ extract_iso_date SampleDate.revised_page = Some "2015-10-31"
  /\ extract_iso_date SampleDate.revised_page
     <> iso_date_as_specified SampleDate.revised_page.
Proof. repeat split; try reflexivity. vm_compute. discriminate. Qed.

(** The first pass asks for elements with a class attribute: a [time]
    element without one is passed by, whatever its datetime. *)
Example time_without_class_is_passed_by :
  extract_iso_date SampleDate.plain_time_page = None.
Proof. reflexivity. Qed.

Section DateConversion.

Lemma strptime_empty (s : string) :
  truthy s = false -> Datetime.strptime_Ymd s = None.
Proof. destruct s; [reflexivity | discriminate]. Qed.

Lemma days_in_month_le_31 (y m : Z) : (Datetime.days_in_month y m <= 31)%Z.
Proof.
  unfold Datetime.days_in_month.
  destruct (m =? 2)%Z; [destruct (Datetime.is_leap y); lia|].
  destruct ((m =? 4) || (m =? 6) || (m =? 9) || (m =? 11))%Z; lia.
Qed.

Lemma strptime_day_range (s : string) (dt : Datetime.datetime) :
  Datetime.strptime_Ymd s = Some dt ->
  (1 <= Datetime.day dt <= 31)%Z.
Proof.
  unfold Datetime.strptime_Ymd.
  destruct s as [|y1 [|y2 [|y3 [|y4 [|h1 [|m1 [|m2 [|h2 [|d1 [|d2 [|? ?]]]]]]]]]]];
    try discriminate.
  match goal with |- (if ?c then _ else _) = _ -> _ => destruct c eqn:E end;
    [|discriminate].
  intros H. injection H as <-. simpl.
  repeat (apply andb_true_iff in E as [E ?]).
  pose proof (days_in_month_le_31
                (100 * Datetime.two y1 y2 + Datetime.two y3 y4) (Datetime.two m1 m2)).
  lia.
Qed.

Lemma day_cases (d : Z) :
  (1 <= d <= 31)%Z -> In d (map Z.of_nat (seq 1 31)).
Proof.
  intros H. apply in_map_iff. exists (Z.to_nat d). split; [lia|].
  apply in_seq. lia.
Qed.

(** A day of the month written plainly begins with a digit that is not
    zero, and reads back as the day. *)
Lemma plain_day_no_leading_zero (d : Z) :
  (1 <= d <= 31)%Z ->
  exists c rest, Datetime.plain_day d = String c rest
                 /\ c <> "0"%char
                 /\ int_of_digits (Datetime.plain_day d) = d.
Proof.
  intros H. apply day_cases in H. simpl in H.
  repeat (destruct H as [<-|H];
          [eexists; eexists; split; [reflexivity | split; [discriminate | reflexivity]]|]).
  destruct H.
Qed.

End DateConversion.

(** C6, as the code has it. On a page with a main region, the date field
    is null when no ISO date is found or when it does not convert; when it
    converts, the field is the long form "Month D, Year", the day without
    a leading zero, where the platform's [strftime] takes [%-d], and the
    form with the day on two digits where it does not and the script falls
    back on [%d]. Every case gives a value: nothing is raised. *)
Theorem date_field_is_long_form_or_null
  (pf : Datetime.platform) (soup main_div : node) :
  find_main_content_div soup = Some main_div ->
  date (extract_page_summary pf soup)
  = match extract_iso_date soup with
    | None => None
    | Some iso =>
        match Datetime.strptime_Ymd iso with
        | None => None
        | Some dt =>
            Some (if Datetime.strftime_takes_dash pf then long_form dt else padded_form dt)
        end
    end
  /\ forall iso dt,
       Datetime.strptime_Ymd iso = Some dt ->
       exists c rest, Datetime.plain_day (Datetime.day dt) = String c rest
                      /\ c <> "0"%char
                      /\ int_of_digits (Datetime.plain_day (Datetime.day dt)) = Datetime.day dt.
Proof.
  intros Hmain. split.
  - unfold extract_page_summary. rewrite Hmain.
    destruct (extract_opening_paragraphs main_div) as [[lead_html i_count] stop_node].
    destruct (extract_race_section_after main_div stop_node) as [race_html j_count].
    simpl. destruct (extract_iso_date soup) as [iso|]; simpl; [|reflexivity].
    destruct (truthy iso) eqn:Ht.
    + unfold convert. destruct (Datetime.strptime_Ymd iso) as [dt|]; [|reflexivity].
      unfold Datetime.strftime. destruct (Datetime.strftime_takes_dash pf); reflexivity.
    + now rewrite (strptime_empty iso Ht).
  - intros iso dt H. apply plain_day_no_leading_zero.
    now apply (strptime_day_range iso).
Qed.

Lemma date_field_sample :
  date (extract_page_summary Datetime.unix Sample.page) = Some "November 1, 2015"
  /\ exists c rest, Datetime.plain_day 1 = String c rest
                    /\ c <> "0"%char
                    /\ int_of_digits (Datetime.plain_day 1) = 1%Z.
Proof.
  destruct (date_field_is_long_form_or_null Datetime.unix Sample.page Sample.article eq_refl)
    as [Hdate Hday].
  split.
  - rewrite Hdate. reflexivity.
  - apply (Hday "2015-11-01"
             {| Datetime.year := 2015; Datetime.month := 11; Datetime.day := 1 |}).
    reflexivity.
Defined.

(** C6 as it is worded fails where [strftime] has no [%-d]: the fallback
    writes the day on two digits. *)
Lemma date_as_specified_fails : ~ date_as_specified Datetime.windows Sample.page.
Proof.
  intros H.
  specialize (H "2015-11-01"
                {| Datetime.year := 2015; Datetime.month := 11; Datetime.day := 1 |}).
  assert (Hmain : find_main_content_div Sample.page <> None) by (vm_compute; discriminate).
  specialize (H Hmain eq_refl eq_refl). vm_compute in H. discriminate H.
Qed.

(* ===================================================================== *)
(** * Dictionaries and sorting *)
(* ===================================================================== *)

Module DictFacts.
Import Dict.

Section Entries.
Context {V : Type}.
Implicit Types (d : dict V) (k : Z) (v : V).

Lemma get_None d k : get d k = None <-> ~ In k (keys d).
Proof.
  induction d as [|[k' v'] d IH]; simpl; [tauto|].
  destruct (Z.eqb_spec k' k) as [->|Hne].
  - split; [discriminate | tauto].
  - rewrite IH. tauto.
Qed.

Lemma get_Some_In d k v : get d k = Some v -> In (k, v) d.
Proof.
  induction d as [|[k' v'] d IH]; simpl; [discriminate|].
  destruct (Z.eqb_spec k' k) as [->|Hne].
  - intros [= ->]. now left.
  - intros H. right. now apply IH.
Qed.

Lemma In_get d k v : NoDup (keys d) -> In (k, v) d -> get d k = Some v.
Proof.
  induction d as [|[k' v'] d IH]; simpl; [tauto|].
  intros Hnd [[= -> ->]|Hin].
  - now rewrite Z.eqb_refl.
  - inversion Hnd as [|? ? Hfresh Hrest]; subst.
    destruct (Z.eqb_spec k' k) as [->|Hne]; [|now apply IH].
    exfalso. apply Hfresh. change k with (fst (k, v)). now apply in_map.
Qed.

Lemma get_snoc d k v k' :
  get (d ++ [(k, v)])%list k'
  = match get d k' with
    | Some x => Some x
    | None => if (k =? k')%Z then Some v else None
    end.
Proof.
  induction d as [|[k0 v0] d IH]; simpl; [reflexivity|].
  destruct (k0 =? k')%Z; [reflexivity | exact IH].
Qed.

Lemma keys_snoc d k v : keys (d ++ [(k, v)])%list = (keys d ++ [k])%list.
Proof. unfold keys. now rewrite map_app. Qed.

Lemma NoDup_snoc (l : list Z) (x : Z) : NoDup l -> ~ In x l -> NoDup (l ++ [x])%list.
Proof.
  intros Hl Hx. apply NoDup_app; [assumption | repeat constructor; tauto |].
  intros a Ha [<-|[]]. contradiction.
Qed.

(** A new key makes [d[k] = v] an append. *)
Lemma set_fresh d k v : ~ In k (keys d) -> set d k v = (d ++ [(k, v)])%list.
Proof.
  induction d as [|[k' v'] d IH]; simpl; [reflexivity|].
  intros H. destruct (Z.eqb_spec k' k) as [->|Hne]; [tauto|].
  rewrite IH; tauto.
Qed.

(** [d[k]] does not miss when [k] is one of the keys of [d]. *)
Lemma getitem_of_key (dflt : V) d k :
  In k (keys d) -> exists v, get d k = Some v /\ getitem dflt d k = v.
Proof.
  intros Hin. unfold getitem. destruct (get d k) as [v|] eqn:E.
  - now exists v.
  - apply get_None in E. contradiction.
Qed.

Lemma NoDup_keys_filter (p : Z * V -> bool) d :
  NoDup (keys d) -> NoDup (keys (filter p d)).
Proof.
  induction d as [|[k v] d IH]; simpl; [constructor|].
  intros Hnd. inversion Hnd as [|? ? Hfresh Hrest]; subst.
  destruct (p (k, v)); simpl; [|now apply IH].
  constructor; [|now apply IH].
  intros Hin. apply Hfresh. unfold keys in *. apply in_map_iff in Hin as [[k' v'] [E Hin]].
  apply filter_In in Hin as [Hin _]. simpl in E. subst k'.
  change k with (fst (k, v')). now apply in_map.
Qed.

End Entries.

Section Sorting.

Lemma insert_sorted_perm (x : Z) (l : list Z) : Permutation (x :: l) (insert_sorted x l).
Proof.
  induction l as [|y l IH]; simpl; [reflexivity|].
  destruct (x <=? y)%Z; [reflexivity|].
  rewrite perm_swap. now constructor.
Qed.

Lemma sorted_perm (l : list Z) : Permutation l (sorted l).
Proof.
  induction l as [|x l IH]; simpl; [constructor|].
  rewrite <- insert_sorted_perm. now constructor.
Qed.

Lemma sorted_In (l : list Z) (x : Z) : In x (sorted l) <-> In x l.
Proof.
  split; apply Permutation_in; [symmetry|]; apply sorted_perm.
Qed.

Lemma sorted_NoDup (l : list Z) : NoDup l -> NoDup (sorted l).
Proof. apply Permutation_NoDup, sorted_perm. Qed.

Lemma insert_sorted_ascending (x : Z) (l : list Z) :
  StronglySorted Z.le l -> StronglySorted Z.le (insert_sorted x l).
Proof.
  induction l as [|y l IH]; intros Hs; simpl; [repeat constructor|].
  inversion Hs as [|? ? Hl Hy]; subst.
  destruct (Z.leb_spec x y) as [Hle|Hgt].
  - constructor; [assumption|]. constructor; [assumption|].
    eapply Forall_impl; [|exact Hy]. intros a Ha. simpl in Ha. lia.
  - constructor; [now apply IH|].
    apply Forall_forall. intros a Ha.
    apply (Permutation_in _ (Permutation_sym (insert_sorted_perm x l))) in Ha.
    destruct Ha as [<-|Ha]; [lia|].
    rewrite Forall_forall in Hy. now apply Hy.
Qed.

Lemma sorted_ascending (l : list Z) : StronglySorted Z.le (sorted l).
Proof.
  induction l as [|x l IH]; simpl; [constructor|].
  now apply insert_sorted_ascending.
Qed.

Lemma ascending_strict (l : list Z) :
  StronglySorted Z.le l -> NoDup l -> StronglySorted Z.lt l.
Proof.
  induction 1 as [|x l Hs IH Hx]; intros Hnd; constructor.
  - apply IH. now inversion Hnd.
  - inversion Hnd as [|? ? Hfresh _]; subst.
    rewrite Forall_forall in *. intros a Ha. specialize (Hx a Ha).
    assert (a <> x) by (intros ->; contradiction). lia.
Qed.

End Sorting.

End DictFacts.

(* ===================================================================== *)
(** * Category discovery *)
(* ===================================================================== *)

Section Discovery.
Import DictFacts.

Lemma setdefault_get (links : Dict.dict string) (k : Z) (v : string) (y : Z) :
  Dict.get (Dict.setdefault links k v) y
  = match Dict.get links y with
    | Some u => Some u
    | None => if (k =? y)%Z then Some v else None
    end.
Proof.
  unfold Dict.setdefault. destruct (Dict.get links k) eqn:Hk.
  - destruct (Dict.get links y) eqn:Hy; [reflexivity|].
    destruct (Z.eqb_spec k y) as [->|]; [congruence | reflexivity].
  - apply get_snoc.
Qed.

Lemma setdefault_NoDup (links : Dict.dict string) (k : Z) (v : string) :
  NoDup (Dict.keys links) -> NoDup (Dict.keys (Dict.setdefault links k v)).
Proof.
  intros Hnd. unfold Dict.setdefault. destruct (Dict.get links k) eqn:Hk; [assumption|].
  rewrite keys_snoc. apply NoDup_snoc; [assumption|]. now apply get_None.
Qed.

(** After the loop, a year has the target of its first anchor, unless it
    had an entry before. *)
Lemma record_links_get (l : list node) (links : Dict.dict string) (y : Z) :
  Dict.get (fold_left record_link l links) y
  = match Dict.get links y with
    | Some u => Some u
    | None => option_map (String.append SITE) (first_link_for y l)
    end.
Proof.
  revert links. induction l as [|a l IH]; intros links; simpl.
  - destruct (Dict.get links y); reflexivity.
  - rewrite IH. unfold record_link, first_link_for. simpl.
    destruct (year_link_of a) as [[y' href]|].
    + rewrite setdefault_get. destruct (Dict.get links y); [reflexivity|].
      destruct (y' =? y)%Z; reflexivity.
    + reflexivity.
Qed.

Lemma record_links_NoDup (l : list node) (links : Dict.dict string) :
  NoDup (Dict.keys links) -> NoDup (Dict.keys (fold_left record_link l links)).
Proof.
  revert links. induction l as [|a l IH]; intros links Hnd; simpl; [assumption|].
  apply IH. unfold record_link.
  destruct (year_link_of a) as [[y' href]|]; [now apply setdefault_NoDup | assumption].
Qed.

Lemma keys_by_sorted_keys (links : Dict.dict string) (ks : list Z) :
  Dict.keys (map (fun k => (k, Dict.getitem "" links k)) ks) = ks.
Proof.
  unfold Dict.keys. rewrite map_map. simpl. apply map_id.
Qed.

Lemma parsed_keys (soup : node) :
  Dict.keys (parse_year_links_from_category soup)
  = Dict.sorted (Dict.keys (fold_left record_link (anchors soup) [])).
Proof. unfold parse_year_links_from_category. apply keys_by_sorted_keys. Qed.

Lemma parsed_NoDup (soup : node) :
  NoDup (Dict.keys (parse_year_links_from_category soup)).
Proof.
  rewrite parsed_keys. apply sorted_NoDup, record_links_NoDup. constructor.
Qed.

End Discovery.

(** C7. The mapping that [parse_year_links_from_category] returns has at
    most one entry per year, its years ascend, and the entry of a year is
    the site's scheme and host followed by the target of the first anchor,
    in document order, that qualifies for that year; a year has an entry
    exactly when an anchor qualifies for it. *)
Theorem category_links_first_wins_ascending (soup : node) :
  let links := parse_year_links_from_category soup in
  NoDup (Dict.keys links)
  /\ StronglySorted Z.lt (Dict.keys links)
  /\ forall y url,
       In (y, url) links
       <-> exists href, first_link_for y (anchors soup) = Some href /\ url = SITE ++ href.
Proof.
  cbv zeta. split; [apply parsed_NoDup|]. split.
  - apply DictFacts.ascending_strict; [|apply parsed_NoDup].
    rewrite parsed_keys. apply DictFacts.sorted_ascending.
  - intros y url. unfold parse_year_links_from_category. fold (anchors soup).
    set (raw := fold_left record_link (anchors soup) []).
    assert (Hget : Dict.get raw y = option_map (String.append SITE)
                                      (first_link_for y (anchors soup)))
      by (unfold raw; now rewrite record_links_get).
    rewrite in_map_iff. split.
    + intros [k [[= -> <-] Hk]]. apply -> DictFacts.sorted_In in Hk.
      unfold Dict.getitem. destruct (Dict.get raw y) as [u|] eqn:Hu.
      * destruct (first_link_for y (anchors soup)) as [href|]; [|discriminate].
        exists href. split; [reflexivity|]. cbn [option_map] in Hget. congruence.
      * apply DictFacts.get_None in Hu. contradiction.
    + intros [href [Hfirst ->]]. rewrite Hfirst in Hget. cbn [option_map] in Hget.
      exists y. split.
      * unfold Dict.getitem. now rewrite Hget.
      * apply DictFacts.sorted_In.
        destruct (in_dec Z.eq_dec y (Dict.keys raw)) as [Hin|Hout]; [assumption|].
        apply DictFacts.get_None in Hout. congruence.
Qed.

Example category_sample :
  parse_year_links_from_category SampleRun.category
  = [(1990%Z, "https://en.wikipedia.org/wiki/1990_Mexican_Grand_Prix");
     (2014%Z, "https://en.wikipedia.org/wiki/2014_Mexican_Grand_Prix");
     (2015%Z, "https://en.wikipedia.org/wiki/2015_Mexican_Grand_Prix");
     (2016%Z, "https://en.wikipedia.org/wiki/2016_Mexican_Grand_Prix")].
Proof. reflexivity. Qed.

(* ===================================================================== *)
(** * The year filter and the run *)
(* ===================================================================== *)

Section YearFilter.
Import DictFacts.

Lemma keep_year_eligible (now : Z) (excl : bool) (filtered : Dict.dict string)
  (item : Z * string) :
  keep_year now excl filtered item
  = if eligible now excl item
    then Dict.set filtered (fst item) (snd item)
    else filtered.
Proof.
  destruct item as [y url]. unfold keep_year, eligible. simpl.
  destruct (Z.gtb_spec y now) as [Hgt|Hle], (Z.leb_spec y now) as [Hle'|Hgt'];
    try lia; simpl; [reflexivity|].
  destruct (excl && (y =? now)%Z); reflexivity.
Qed.

(** With one entry per year, the loop keeps the eligible entries as they
    are and in their order. *)
Lemma filter_years_from (now : Z) (excl : bool) (l acc : Dict.dict string) :
  NoDup (Dict.keys acc ++ Dict.keys l)%list ->
  fold_left (keep_year now excl) l acc = (acc ++ filter (eligible now excl) l)%list.
Proof.
  revert acc. induction l as [|[y url] l IH]; intros acc Hnd; cbn [fold_left filter].
  - now rewrite app_nil_r.
  - rewrite keep_year_eligible. simpl in Hnd.
    destruct (eligible now excl (y, url)); cbn [fst snd].
    + rewrite set_fresh.
      * rewrite IH; [now rewrite <- app_assoc|].
        rewrite keys_snoc, <- app_assoc. exact Hnd.
      * intros Hin. apply NoDup_remove_2 in Hnd. apply Hnd.
        apply in_or_app. now left.
    + apply IH. now apply NoDup_remove_1 in Hnd.
Qed.

Lemma filter_years_eligible (now : Z) (excl : bool) (year_links : Dict.dict string) :
  NoDup (Dict.keys year_links) ->
  filter_years now excl year_links = filter (eligible now excl) year_links.
Proof. intros Hnd. unfold filter_years. now rewrite filter_years_from. Qed.

Lemma visit_visited (w : world) (filtered : Dict.dict string)
  (results : Dict.dict page_summary) (y : Z) :
  visit w filtered results y
  = match visited w filtered y with
    | Some entry => Dict.set results (fst entry) (snd entry)
    | None => results
    end.
Proof.
  unfold visit, visited. destruct (fetch_url w _); reflexivity.
Qed.

Lemma visited_year (w : world) (filtered : Dict.dict string) (y : Z)
  (entry : Z * page_summary) :
  visited w filtered y = Some entry -> fst entry = y.
Proof.
  unfold visited. destruct (fetch_url w _); [|discriminate]. now intros [= <-].
Qed.

Lemma keys_filter_map_visited (w : world) (filtered : Dict.dict string) (ys : list Z) (y : Z) :
  In y (Dict.keys (filter_map (visited w filtered) ys)) -> In y ys.
Proof.
  induction ys as [|x ys IH]; simpl; [tauto|].
  destruct (visited w filtered x) as [entry|] eqn:E; simpl.
  - intros [Hy|Hin]; [left | right; now apply IH].
    rewrite (visited_year _ _ _ _ E) in Hy. exact Hy.
  - intros Hin. right. now apply IH.
Qed.

(** Over distinct years, the visiting loop appends the summaries of the
    pages it could fetch. *)
Lemma visit_all_from (w : world) (filtered : Dict.dict string) (ys : list Z)
  (acc : Dict.dict page_summary) :
  NoDup (Dict.keys acc ++ ys)%list ->
  fold_left (visit w filtered) ys acc
  = (acc ++ filter_map (visited w filtered) ys)%list.
Proof.
  revert acc. induction ys as [|y ys IH]; intros acc Hnd; cbn [fold_left filter_map].
  - now rewrite app_nil_r.
  - rewrite visit_visited.
    destruct (visited w filtered y) as [entry|] eqn:E.
    + pose proof (visited_year _ _ _ _ E) as Hy. destruct entry as [y' s].
      simpl in Hy. subst y'. simpl. rewrite set_fresh.
      * rewrite IH; [now rewrite <- app_assoc|].
        rewrite keys_snoc, <- app_assoc. exact Hnd.
      * intros Hin. apply NoDup_remove_2 in Hnd. apply Hnd.
        apply in_or_app. now left.
    + apply IH. now apply NoDup_remove_1 in Hnd.
Qed.

Lemma In_keys {V : Type} (d : Dict.dict V) (k : Z) (v : V) :
  In (k, v) d -> In k (Dict.keys d).
Proof. intros H. change k with (fst (k, v)). now apply in_map. Qed.

Lemma keys_In {V : Type} (d : Dict.dict V) (k : Z) :
  In k (Dict.keys d) -> exists v, In (k, v) d.
Proof.
  unfold Dict.keys. intros H. apply in_map_iff in H as [[k' v] [E H]].
  simpl in E. subst k'. now exists v.
Qed.

Lemma In_filter_map_visited (w : world) (filtered : Dict.dict string) (ys : list Z)
  (y : Z) (entry : Z * page_summary) :
  In y ys -> visited w filtered y = Some entry ->
  In entry (filter_map (visited w filtered) ys).
Proof.
  intros Hin Hv. induction ys as [|x ys IH]; simpl in *; [tauto|].
  destruct Hin as [->|Hin].
  - rewrite Hv. now left.
  - destruct (visited w filtered x); [right|]; now apply IH.
Qed.

Lemma keys_of_visited_years (w : world) (filtered : Dict.dict string) (ys : list Z) :
  Dict.keys (filter_map (visited w filtered) ys)
  = filter (fun y => match fetch_url w (Dict.getitem "" filtered y) with
                     | Some _ => true
                     | None => false
                     end) ys.
Proof.
  induction ys as [|y ys IH]; [reflexivity|].
  cbn [filter_map filter]. unfold visited at 1.
  destruct (fetch_url w (Dict.getitem "" filtered y)); simpl; now rewrite IH.
Qed.

(** The loop reaches its end unless a page cannot be reached, and then
    has done what the turns do one after the other. *)
Lemma visit_all_fold (w : world) (filtered : Dict.dict string) (ys : list Z)
  (acc : Dict.dict page_summary) :
  visit_all w filtered ys acc
  = if existsb (fun y => unreachable w (Dict.getitem "" filtered y)) ys
    then None
    else Some (fold_left (visit w filtered) ys acc).
Proof.
  revert acc. induction ys as [|y ys IH]; intros acc; [reflexivity|].
  cbn [visit_all existsb fold_left].
  destruct (unreachable w (Dict.getitem "" filtered y)); [reflexivity | apply IH].
Qed.

(** A remote run that writes a document: the category page was reached
    and served, so were or answered with an error all the pages of the
    years kept, and the document holds the summaries of the pages served,
    by ascending year. *)
Lemma written_remote (w : world) (args : arguments)
  (path : string) (payload : Dict.dict page_summary) :
  local_path args = None ->
  main w args = Written path payload ->
  exists cat,
    unreachable w (category_url args) = false
    /\ fetch_url w (category_url args) = Some cat
    /\ path = output args
    /\ (forall y, In y (Dict.keys (kept_years w args cat)) ->
                  unreachable w (Dict.getitem "" (kept_years w args cat) y) = false)
    /\ payload = filter_map (visited w (kept_years w args cat))
                   (Dict.sorted (Dict.keys (kept_years w args cat)))
    /\ NoDup (Dict.keys (kept_years w args cat))
    /\ kept_years w args cat
       = filter (eligible (now_year w) (exclude_current_year args))
           (restrict_to (only_year args) (parse_year_links_from_category cat)).
Proof.
  intros Hremote Hmain. unfold main in Hmain. rewrite Hremote in Hmain.
  destruct (unreachable w (category_url args)) eqn:Hreach; [discriminate|].
  destruct (fetch_url w (category_url args)) as [cat|] eqn:Hcat; [|discriminate].
  fold (kept_years w args cat) in Hmain. rewrite visit_all_fold in Hmain.
  destruct (existsb _ _) eqn:Hall; [discriminate|].
  injection Hmain as <- <-.
  assert (Hdisc : NoDup (Dict.keys (restrict_to (only_year args)
                                      (parse_year_links_from_category cat)))).
  { unfold restrict_to. destruct (only_year args).
    - apply DictFacts.NoDup_keys_filter, parsed_NoDup.
    - apply parsed_NoDup. }
  assert (Hkept : kept_years w args cat
                  = filter (eligible (now_year w) (exclude_current_year args))
                      (restrict_to (only_year args) (parse_year_links_from_category cat)))
    by (apply filter_years_eligible, Hdisc).
  assert (Hnd : NoDup (Dict.keys (kept_years w args cat)))
    by (rewrite Hkept; apply DictFacts.NoDup_keys_filter, Hdisc).
  exists cat. repeat split; try assumption; try reflexivity.
  - intros y Hy.
    destruct (unreachable w (Dict.getitem "" (kept_years w args cat) y)) eqn:E;
      [|reflexivity].
    assert (Hex : existsb (fun y => unreachable w (Dict.getitem "" (kept_years w args cat) y))
                    (Dict.sorted (Dict.keys (kept_years w args cat))) = true).
    { apply existsb_exists. exists y. split; [now apply DictFacts.sorted_In | exact E]. }
    rewrite Hex in Hall. discriminate.
  - rewrite visit_all_from; [reflexivity|]. simpl. now apply DictFacts.sorted_NoDup.
Qed.

End YearFilter.

(** C8, as the code has it. In a remote run that writes its document, with
    [Y] the current calendar year: a discovered year above [Y] passes
    neither the filter nor into the output; with the exclude-current-year
    flag, neither does [Y]; without the flag, [Y] is kept by the filter
    with its URL if it was discovered, and it is in the output, with the
    summary of its page, exactly when that page is served: a page that
    answers with an HTTP error drops its year. (Discovered: found on the
    category page and, under [--only-year], asked for.) *)
Theorem year_filter_policy (w : world) (args : arguments) (cat : node)
  (path : string) (payload : Dict.dict page_summary) :
  local_path args = None ->
  fetch_url w (category_url args) = Some cat ->
  main w args = Written path payload ->
  let Y := now_year w in
  let discovered := restrict_to (only_year args) (parse_year_links_from_category cat) in
  let filtered := filter_years Y (exclude_current_year args) discovered in
  (forall y, (y > Y)%Z ->
             ~ In y (Dict.keys filtered) /\ ~ In y (Dict.keys payload))
  /\ (exclude_current_year args = true ->
      ~ In Y (Dict.keys filtered) /\ ~ In Y (Dict.keys payload))
  /\ (exclude_current_year args = false ->
      forall url, In (Y, url) discovered ->
        In (Y, url) filtered
        /\ (forall page, fetch_url w url = Some page ->
                         In (Y, extract_page_summary (host w) page) payload)
        /\ (fetch_url w url = None -> ~ In Y (Dict.keys payload))).
Proof.
  intros Hremote Hcat Hmain. cbv zeta.
  destruct (written_remote w args path payload Hremote Hmain)
    as (cat' & _ & Hcat' & _ & _ & Hpayload & Hfnd & Hfilt).
  rewrite Hcat in Hcat'. injection Hcat' as <-.
  unfold kept_years in *.
  set (Y := now_year w) in *.
  set (discovered := restrict_to (only_year args) (parse_year_links_from_category cat)) in *.
  set (filtered := filter_years Y (exclude_current_year args) discovered) in *.
  assert (Hkeys : forall y, In y (Dict.keys filtered) ->
                            (y <= Y)%Z /\ (exclude_current_year args = true -> y <> Y)).
  { intros y Hy. apply keys_In in Hy as [url Hy]. rewrite Hfilt in Hy.
    apply filter_In in Hy as [_ He]. unfold eligible in He. simpl in He.
    apply andb_true_iff in He as [Hle Hex]. split; [lia|].
    intros Hflag ->. rewrite Hflag, Z.eqb_refl in Hex. discriminate. }
  assert (Hout : forall y, In y (Dict.keys payload) -> In y (Dict.keys filtered)).
  { intros y Hy. rewrite Hpayload in Hy. apply keys_filter_map_visited in Hy.
    now apply -> DictFacts.sorted_In in Hy. }
  split; [|split].
  - intros y Hgt. split; intros Hin; [|apply Hout in Hin];
      apply Hkeys in Hin as [Hle _]; lia.
  - intros Hflag. split; intros Hin; [|apply Hout in Hin];
      apply Hkeys in Hin as [_ Hne]; now apply Hne.
  - intros Hflag url Hin.
    assert (Hkept : In (Y, url) filtered).
    { rewrite Hfilt. apply filter_In. split; [assumption|].
      unfold eligible. simpl. rewrite Hflag. simpl. rewrite andb_true_r. lia. }
    assert (Hitem : Dict.getitem "" filtered Y = url).
    { unfold Dict.getitem. now rewrite (DictFacts.In_get filtered Y url Hfnd Hkept). }
    split; [assumption|]. split.
    + intros page Hpage. rewrite Hpayload.
      apply (In_filter_map_visited w filtered _ Y).
      * apply DictFacts.sorted_In. now apply In_keys with url.
      * unfold visited. now rewrite Hitem, Hpage.
    + intros Herror Hy. rewrite Hpayload, keys_of_visited_years in Hy.
      apply filter_In in Hy as [_ Hy]. rewrite Hitem, Herror in Hy. discriminate.
Qed.

Lemma year_filter_sample :
  (~ In 2016%Z (Dict.keys [(2015%Z, extract_page_summary Datetime.unix Sample.page)])
   /\ In (2015%Z, extract_page_summary Datetime.unix Sample.page)
        [(2015%Z, extract_page_summary Datetime.unix Sample.page)])
  /\ ~ In 2015%Z (Dict.keys (@nil (Z * page_summary))).
Proof.
  split.
  - destruct (year_filter_policy SampleRun.world_2015 SampleRun.remote_run
                SampleRun.category "out.json"
                [(2015%Z, extract_page_summary Datetime.unix Sample.page)]
                eq_refl eq_refl eq_refl)
      as (Hfuture & _ & Hcurrent).
    split.
    + apply (Hfuture 2016%Z). reflexivity.
    + apply (Hcurrent eq_refl "https://en.wikipedia.org/wiki/2015_Mexican_Grand_Prix").
      * vm_compute. tauto.
      * reflexivity.
  - destruct (year_filter_policy SampleRun.world_2015 SampleRun.remote_run_excluding
                SampleRun.category "out.json" [] eq_refl eq_refl eq_refl)
      as (_ & Hflag & _).
    apply (Hflag eq_refl).
Defined.

(** C8 as it is worded fails when the page of the current year answers
    with an error status: the year was discovered, the flag is not set,
    the run writes its document, and the year is not in it. *)
Lemma year_policy_as_specified_fails :
  ~ year_policy_as_specified SampleMore.world_2014 SampleRun.remote_run.
Proof.
  intros H.
  destruct (H SampleRun.category "out.json"
              [(1990%Z, extract_page_summary Datetime.unix Sample.page)]
              eq_refl eq_refl eq_refl) as (_ & _ & Hcurrent).
  assert (Hin : In 2014%Z
                  (Dict.keys [(1990%Z, extract_page_summary Datetime.unix Sample.page)])).
  { apply Hcurrent; [reflexivity|]. vm_compute. tauto. }
  simpl in Hin. destruct Hin as [Hin|[]]. discriminate.
Qed.

(* ===================================================================== *)
(** * More on the two scans *)
(* ===================================================================== *)

(** X1. What the first loop of the section scan finds is the first heading
    boundary, from the start index on, whose text matches: the index is
    that of a heading among the nodes scanned, no heading before it
    matches, and its level is 2 or 3, so the guard on a missing level is
    never what empties the result. *)
Theorem located_heading_is_first_match
  (nodes : list node) (i idx : nat) (lvl : option Z) :
  locate_race_heading i nodes = Some (idx, lvl) ->
  exists pre h post,
    nodes = (pre ++ h :: post)%list
    /\ idx = i + length pre
    /\ _is_heading_div h = true
    /\ Re.race_match (_heading_text_from_div h) = true
    /\ lvl = _level_of_heading_div h
    /\ (lvl = Some 2%Z \/ lvl = Some 3%Z)
    /\ forall n, In n pre -> _is_heading_div n = true ->
                 Re.race_match (_heading_text_from_div n) = false.
Proof.
  revert i. induction nodes as [|x nodes IH]; intros i H; simpl in H; [discriminate|].
  assert (Hskip : locate_race_heading (S i) nodes = Some (idx, lvl) ->
                  (_is_heading_div x = true ->
                   Re.race_match (_heading_text_from_div x) = false) ->
                  exists pre h post,
                    x :: nodes = (pre ++ h :: post)%list
                    /\ idx = i + length pre
                    /\ _is_heading_div h = true
                    /\ Re.race_match (_heading_text_from_div h) = true
                    /\ lvl = _level_of_heading_div h
                    /\ (lvl = Some 2%Z \/ lvl = Some 3%Z)
                    /\ forall n, In n pre -> _is_heading_div n = true ->
                                 Re.race_match (_heading_text_from_div n) = false).
  { intros Hrest Hx.
    destruct (IH (S i) Hrest) as (pre & h & post & -> & -> & Hh & Hm & Hl & H23 & Hpre).
    exists (x :: pre), h, post. simpl. repeat split; try assumption; try lia.
    intros n [<-|Hn]; [exact Hx | now apply Hpre]. }
  destruct (_is_heading_div x) eqn:Hx; simpl in H.
  - destruct (Re.race_match (_heading_text_from_div x)) eqn:Hm.
    + injection H as <- <-. exists [], x, nodes. simpl.
      repeat split; try assumption; try lia; try tauto.
      apply heading_level_2_or_3, Hx.
    + apply Hskip; [exact H | reflexivity].
  - apply Hskip; [exact H | discriminate].
Qed.

Lemma located_heading_sample :
  exists pre h post,
    skipn 3 (element_children Sample.article) = (pre ++ h :: post)%list
    /\ 4 = 3 + length pre
    /\ _is_heading_div h = true
    /\ Re.race_match (_heading_text_from_div h) = true
    /\ Some 2%Z = _level_of_heading_div h
    /\ (Some 2%Z = Some 2%Z \/ Some 2%Z = Some 3%Z)
    /\ forall n, In n pre -> _is_heading_div n = true ->
                 Re.race_match (_heading_text_from_div n) = false.
Proof.
  apply (located_heading_is_first_match (skipn 3 (element_children Sample.article)) 3 4 (Some 2%Z)).
  reflexivity.
Defined.

Section LeadMore.

Lemma before_boundary_all (l : list node) :
  (forall n, In n l -> level2_boundary n = false) ->
  before_boundary l = l /\ find level2_boundary l = None.
Proof.
  induction l as [|x l IH]; intros H; simpl; [split; reflexivity|].
  rewrite (H x (or_introl eq_refl)).
  destruct IH as [-> ->]; [intros n Hn; apply H; now right|]. split; reflexivity.
Qed.

Lemma opening_scan_elements (l : list node) :
  opening_scan (filter is_tag l) = opening_scan l.
Proof.
  induction l as [|x l IH]; [reflexivity|].
  cbn [filter opening_scan].
  destruct (is_tag x) eqn:Htag; cbn [negb].
  - cbn [opening_scan]. rewrite Htag. cbn [negb]. now rewrite IH.
  - exact IH.
Qed.

End LeadMore.

(** X2. When no child of the main region is a level-2 heading boundary,
    the lead scan runs over all the children: it returns the markup of
    every paragraph whose class is absent or without a token, and no stop
    node. *)
Theorem lead_without_boundary_scans_everything (main_div : node) :
  (forall n, In n (children main_div) -> level2_boundary n = false) ->
  extract_opening_paragraphs main_div
  = (join blank_line (map decode (filter tokenless_paragraph (children main_div))),
     length (filter tokenless_paragraph (children main_div)), None).
Proof.
  intros H. unfold extract_opening_paragraphs. rewrite opening_scan_spec.
  destruct (before_boundary_all (children main_div) H) as [-> ->]. reflexivity.
Qed.

Lemma lead_without_boundary_sample :
  extract_opening_paragraphs SampleMore.stub_article
  = (join blank_line
       (map decode [Sample.para "Only a lead."; Sample.para "And a second paragraph."]),
     2, None).
Proof.
  apply (lead_without_boundary_scans_everything SampleMore.stub_article).
  intros n Hn. simpl in Hn. destruct Hn as [<-|[<-|[<-|[<-|[]]]]]; reflexivity.
Defined.

(** X3. Both scans see the element children of the region and nothing
    else: two regions with the same element children, whatever bare text
    lies between them and whatever the regions' own names and attributes,
    give the same lead, the same stop node and the same section. *)
Theorem scans_depend_on_element_children_only (m1 m2 : node) :
  element_children m1 = element_children m2 ->
  extract_opening_paragraphs m1 = extract_opening_paragraphs m2
  /\ forall start_after,
       extract_race_section_after m1 start_after
       = extract_race_section_after m2 start_after.
Proof.
  intros H. split.
  - unfold extract_opening_paragraphs.
    rewrite <- (opening_scan_elements (children m1)), <- (opening_scan_elements (children m2)).
    unfold element_children in H. now rewrite H.
  - intros start_after. unfold extract_race_section_after. now rewrite H.
Qed.

Lemma scans_depend_on_element_children_sample :
  extract_opening_paragraphs SampleMore.stub_article
  = extract_opening_paragraphs
      (Tag "section" []
         [Sample.para "Only a lead."; Tag "table" [("class", "infobox")] [];
          NavigableString "in between"; Sample.para "And a second paragraph."])
  /\ forall start_after,
       extract_race_section_after SampleMore.stub_article start_after
       = extract_race_section_after
           (Tag "section" []
              [Sample.para "Only a lead."; Tag "table" [("class", "infobox")] [];
               NavigableString "in between"; Sample.para "And a second paragraph."])
           start_after.
Proof.
  apply (scans_depend_on_element_children_only SampleMore.stub_article). reflexivity.
Defined.

Section Resume.

(** Induction on trees, with the property at hand for every child. *)
Lemma node_tree_ind (P : node -> Prop) :
  (forall s, P (NavigableString s)) ->
  (forall name attrs contents, Forall P contents -> P (Tag name attrs contents)) ->
  forall n, P n.
Proof.
  intros Htext Htag. fix IH 1. intros [s | name attrs contents].
  - apply Htext.
  - apply Htag. induction contents as [|c contents IHc]; constructor.
    + apply IH.
    + exact IHc.
Qed.

Lemma lookup_In (key : string) (attrs : list (string * string)) (v : string) :
  lookup key attrs = Some v -> In (key, v) attrs.
Proof.
  induction attrs as [|[k x] attrs IH]; simpl; [discriminate|].
  destruct (String.eqb_spec k key) as [->|Hne].
  - intros [= ->]. now left.
  - intros H. right. now apply IH.
Qed.

Lemma In_lookup (key : string) (attrs : list (string * string)) (v : string) :
  In (key, v) attrs -> exists x, lookup key attrs = Some x.
Proof.
  induction attrs as [|[k x] attrs IH]; simpl; [tauto|].
  intros [[= -> ->]|Hin].
  - rewrite String.eqb_refl. now exists v.
  - destruct (String.eqb k key); [now exists x | now apply IH].
Qed.

Lemma attr_value_eqb_refl (tag k v : string) : attr_value_eqb tag k v v = true.
Proof.
  unfold attr_value_eqb. destruct (multi_valued tag k).
  - destruct (list_eq_dec string_dec (tokens v) (tokens v)); [reflexivity | congruence].
  - apply String.eqb_refl.
Qed.

Lemma attrs_eqb_refl (tag : string) (attrs : list (string * string)) :
  attrs_eqb tag attrs attrs = true.
Proof.
  unfold attrs_eqb. apply forallb_forall. intros [k v] Hin. simpl.
  apply in_app_or in Hin.
  assert (Hk : exists x, lookup k attrs = Some x)
    by (destruct Hin as [Hin|Hin]; now apply In_lookup with v).
  destruct Hk as [x ->]. apply attr_value_eqb_refl.
Qed.

Lemma node_eqb_refl (n : node) : node_eqb n n = true.
Proof.
  induction n as [s | name attrs contents IH] using node_tree_ind; simpl.
  - apply String.eqb_refl.
  - rewrite String.eqb_refl, attrs_eqb_refl. simpl.
    induction IH as [|c contents Hc _ IHrest]; [reflexivity|].
    now rewrite Hc, IHrest.
Qed.

(** Equal attributes give the same class tokens. *)
Lemma attrs_eqb_class (tag : string) (a1 a2 : list (string * string)) :
  attrs_eqb tag a1 a2 = true ->
  option_map tokens (lookup "class" a1) = option_map tokens (lookup "class" a2).
Proof.
  unfold attrs_eqb. rewrite forallb_forall. intros H.
  assert (Hat : forall v, In ("class", v) (a1 ++ a2)%list ->
                          option_map tokens (lookup "class" a1)
                          = option_map tokens (lookup "class" a2)).
  { intros v Hin. specialize (H _ Hin). simpl in H.
    destruct (lookup "class" a1) as [v1|]; [|discriminate].
    destruct (lookup "class" a2) as [v2|]; [|discriminate].
    unfold attr_value_eqb in H. simpl in H.
    destruct (list_eq_dec string_dec (tokens v1) (tokens v2)) as [E|]; [|discriminate].
    simpl. now rewrite E. }
  destruct (lookup "class" a1) as [v1|] eqn:E1.
  - apply (Hat v1), in_or_app. left. now apply lookup_In.
  - destruct (lookup "class" a2) as [v2|] eqn:E2; [|reflexivity].
    apply (Hat v2), in_or_app. right. now apply lookup_In.
Qed.

(** Equal nodes are level-2 boundaries together. *)
Lemma node_eqb_boundary (c b : node) :
  node_eqb c b = true -> level2_boundary c = level2_boundary b.
Proof.
  destruct c as [s | n1 a1 c1], b as [t | n2 a2 c2]; simpl; try discriminate;
    [reflexivity|].
  intros H. apply andb_true_iff in H as [H _]. apply andb_true_iff in H as [Hn Ha].
  apply String.eqb_eq in Hn. subst n2. apply attrs_eqb_class in Ha.
  unfold level2_boundary, _is_heading_div, _level_of_heading_div,
    get_class_or_empty, get_class, get. simpl. now rewrite Ha.
Qed.

Lemma index_of_first_boundary (pre : list node) (b : node) (post : list node) :
  (forall n, In n pre -> level2_boundary n = false) ->
  level2_boundary b = true ->
  index (pre ++ b :: post)%list b = Some (length pre).
Proof.
  intros Hpre Hb. induction pre as [|x pre IH]; simpl.
  - now rewrite node_eqb_refl.
  - destruct (node_eqb x b) eqn:E.
    + apply node_eqb_boundary in E. rewrite Hb, (Hpre x (or_introl eq_refl)) in E.
      discriminate.
    + rewrite IH; [reflexivity|]. intros n Hn. apply Hpre. now right.
Qed.

Lemma locate_shift (k i : nat) (l : list node) :
  locate_race_heading (i + k) l
  = option_map (fun found : nat * option Z => (fst found + k, snd found))
      (locate_race_heading i l).
Proof.
  revert i. induction l as [|x l IH]; intros i; simpl; [reflexivity|].
  destruct (_is_heading_div x); simpl.
  - destruct (Re.race_match (_heading_text_from_div x)); [reflexivity|]. apply (IH (S i)).
  - apply (IH (S i)).
Qed.

Lemma skipn_app_exact {A : Type} (n : nat) (l1 l2 : list A) :
  skipn (n + length l1) (l1 ++ l2)%list = skipn n l2.
Proof.
  induction l1 as [|x l1 IH]; simpl.
  - now rewrite Nat.add_0_r.
  - rewrite Nat.add_succ_r. exact IH.
Qed.

Lemma filter_tags_boundary_free (pre : list node) :
  (forall n, In n pre -> level2_boundary n = false) ->
  forall n, In n (filter is_tag pre) -> level2_boundary n = false.
Proof.
  intros H n Hn. apply filter_In in Hn as [Hn _]. now apply H.
Qed.

End Resume.

(** X4. With the stop node of the lead scan, the section scan resumes
    right after the first level-2 heading boundary: that boundary is the
    stop node, the start index is one past its place among the element
    children, and the section found is the one a scan from the top would
    find in the children that follow the boundary. Neither the boundary
    itself nor anything before it can be the race heading. *)
Theorem section_scan_resumes_after_first_boundary
  (main_div : node) (pre : list node) (b : node) (post : list node) :
  children main_div = (pre ++ b :: post)%list ->
  level2_boundary b = true ->
  (forall n, In n pre -> level2_boundary n = false) ->
  stop_node_of main_div = Some b
  /\ start_index (element_children main_div) (stop_node_of main_div)
     = S (length (filter is_tag pre))
  /\ extract_race_section_after main_div (stop_node_of main_div)
     = extract_race_section_after (Tag "div" [] post) None.
Proof.
  intros Hcs Hb Hpre.
  assert (Hstop : stop_node_of main_div = Some b).
  { unfold stop_node_of, extract_opening_paragraphs. rewrite opening_scan_spec, Hcs.
    destruct (before_boundary_split pre b post Hpre) as [_ ->]. now rewrite Hb. }
  assert (Htag : is_tag b = true).
  { unfold level2_boundary in Hb. destruct (is_tag b); [reflexivity | discriminate]. }
  assert (Hec : element_children main_div
                = (filter is_tag pre ++ b :: filter is_tag post)%list).
  { unfold element_children. rewrite Hcs, filter_app. simpl. now rewrite Htag. }
  assert (Hidx : start_index (element_children main_div) (Some b)
                 = S (length (filter is_tag pre))).
  { unfold start_index. rewrite Hec, index_of_first_boundary;
      [lia | now apply filter_tags_boundary_free | assumption]. }
  rewrite Hstop. split; [reflexivity|]. split; [exact Hidx|].
  unfold extract_race_section_after. rewrite Hidx.
  change (element_children (Tag "div" [] post)) with (filter is_tag post).
  change (start_index (filter is_tag post) None) with 0.
  set (s := S (length (filter is_tag pre))).
  assert (Hskip : forall n, skipn (n + s) (element_children main_div)
                            = skipn n (filter is_tag post)).
  { intros n. rewrite Hec. unfold s.
    change (filter is_tag pre ++ b :: filter is_tag post)%list
      with (filter is_tag pre ++ [b] ++ filter is_tag post)%list.
    rewrite app_assoc.
    replace (n + S (length (filter is_tag pre)))
      with (n + length (filter is_tag pre ++ [b])%list)
      by (rewrite length_app; simpl; lia).
    apply skipn_app_exact. }
  pose proof (Hskip 0) as H0. change (0 + s) with s in H0.
  change (skipn 0 (filter is_tag post)) with (filter is_tag post) in *.
  rewrite H0, (locate_shift s 0).
  destruct (locate_race_heading 0 (filter is_tag post)) as [[idx [lvl|]]|]; simpl;
    try reflexivity.
  replace (idx + s + 1) with ((idx + 1) + s) by lia. now rewrite Hskip.
Qed.

Lemma section_scan_resumes_sample :
  stop_node_of SampleMore.race_first_article = Some (Sample.heading2 "Race")
  /\ start_index (element_children SampleMore.race_first_article)
       (stop_node_of SampleMore.race_first_article) = 2
  /\ extract_race_section_after SampleMore.race_first_article
       (stop_node_of SampleMore.race_first_article)
     = extract_race_section_after
         (Tag "div" []
            [Sample.para "The race went by."; Sample.heading2 "Aftermath";
             Sample.para "Nothing more."]) None.
Proof.
  apply (section_scan_resumes_after_first_boundary SampleMore.race_first_article
           [Sample.para "A lead."] (Sample.heading2 "Race")).
  - reflexivity.
  - reflexivity.
  - intros n Hn. simpl in Hn. destruct Hn as [<-|[]]. reflexivity.
Defined.

(** The page whose first level-2 heading is the race heading: the scan
    starts after it, and finds nothing. *)
Example race_heading_first_is_missed :
  extract_race_section_after SampleMore.race_first_article
    (stop_node_of SampleMore.race_first_article) = ("", 0).
Proof. reflexivity. Qed.

(* ===================================================================== *)
(** * The heading classifier *)
(* ===================================================================== *)

Section Tokens.

Lemma no_blank_snoc (cur : string) (c : ascii) :
  no_blank cur = true -> isspace c = false -> no_blank (cur ++ String c "") = true.
Proof.
  unfold no_blank. induction cur as [|x cur IH]; simpl; intros H Hc.
  - now rewrite Hc.
  - apply andb_true_iff in H as [Hx H]. rewrite Hx. simpl. now apply IH.
Qed.

(** Every token read off a value is a token. *)
Lemma tokens_from_are_tokens (s cur : string) :
  no_blank cur = true -> Forall (fun t => is_token t = true) (tokens_from cur s).
Proof.
  revert cur. induction s as [|c s IH]; intros cur Hcur; simpl.
  - destruct (truthy cur) eqn:Ht; constructor; [|constructor].
    unfold is_token. now rewrite Ht.
  - destruct (isspace c) eqn:Hc.
    + destruct (truthy cur) eqn:Ht.
      * constructor; [unfold is_token; now rewrite Ht | now apply IH].
      * now apply IH.
    + apply IH. now apply no_blank_snoc.
Qed.

Lemma tokens_from_run (t cur rest : string) :
  no_blank t = true ->
  tokens_from cur (t ++ rest) = tokens_from (cur ++ t) rest.
Proof.
  revert cur. induction t as [|c t IH]; intros cur Ht; simpl.
  - f_equal. induction cur as [|x cur IHc]; simpl; [reflexivity | now rewrite <- IHc].
  - unfold no_blank in Ht. simpl in Ht. apply andb_true_iff in Ht as [Hc Ht].
    apply negb_true_iff in Hc. rewrite Hc, (IH _ Ht). f_equal.
    now rewrite app_assoc_str.
Qed.

Lemma tokens_from_one (t : string) :
  is_token t = true -> tokens_from "" t = [t].
Proof.
  unfold is_token. intros H. apply andb_true_iff in H as [Ht Hn].
  replace t with (t ++ "") at 1
    by (clear; induction t as [|c t IH]; simpl; [reflexivity | now rewrite IH]).
  rewrite (tokens_from_run t "" "" Hn). simpl. now rewrite Ht.
Qed.

(** Reading the tokens of a list of tokens joined by single spaces gives
    the list back. *)
Lemma tokens_join (l : list string) :
  Forall (fun t => is_token t = true) l -> tokens (join " " l) = l.
Proof.
  unfold tokens. induction 1 as [|t l Ht Hl IH]; [reflexivity|].
  destruct l as [|u l]; [now apply tokens_from_one|].
  change (join " " (t :: u :: l)) with (t ++ String " " (join " " (u :: l))).
  unfold is_token in Ht. apply andb_true_iff in Ht as [Htruthy Hn].
  rewrite (tokens_from_run t "" _ Hn).
  change ("" ++ t) with t.
  change (tokens_from t (String " " (join " " (u :: l))))
    with (if truthy t then t :: tokens_from "" (join " " (u :: l))
          else tokens_from "" (join " " (u :: l))).
  now rewrite Htruthy, IH.
Qed.

Lemma class_list_tokens (n : node) :
  Forall (fun t => is_token t = true) (get_class_or_empty n).
Proof.
  unfold get_class_or_empty, get_class.
  destruct (get n "class") as [v|]; simpl; [|constructor].
  now apply tokens_from_are_tokens.
Qed.

(** The joined class string is a signature exactly when the class list is
    the signature's two tokens. *)
Lemma joined_class_is (n : node) (signature : string) :
  Forall (fun t => is_token t = true) (tokens signature) ->
  join " " (tokens signature) = signature ->
  String.eqb (join " " (get_class_or_empty n)) signature = true
  <-> get_class_or_empty n = tokens signature.
Proof.
  intros Hsig Hjoin. rewrite String.eqb_eq. split.
  - intros H. rewrite <- (tokens_join _ (class_list_tokens n)). now rewrite H.
  - intros ->. exact Hjoin.
Qed.

End Tokens.

(** X5. The classifier asks for the exact class list: a node is a heading
    boundary exactly when it is a [div] whose class tokens are
    [mw-heading] then [mw-heading2], or [mw-heading] then [mw-heading3],
    in that order and with no other token; its level is 2 in the first
    case and 3 in the second. Blanks around and between the tokens in the
    page do not matter. *)
Theorem heading_boundary_needs_exact_class_list (n : node) :
  (_is_heading_div n = true
   <-> name_of n = "div"
       /\ (get_class_or_empty n = ["mw-heading"; "mw-heading2"]
           \/ get_class_or_empty n = ["mw-heading"; "mw-heading3"]))
  /\ (_level_of_heading_div n = Some 2%Z
      <-> get_class_or_empty n = ["mw-heading"; "mw-heading2"])
  /\ (_level_of_heading_div n = Some 3%Z
      <-> get_class_or_empty n = ["mw-heading"; "mw-heading3"]).
Proof.
  assert (H2 : String.eqb (join " " (get_class_or_empty n)) H2_DIV_CLASS = true
               <-> get_class_or_empty n = ["mw-heading"; "mw-heading2"]).
  { apply (joined_class_is n H2_DIV_CLASS); [repeat constructor | reflexivity]. }
  assert (H3 : String.eqb (join " " (get_class_or_empty n)) H3_DIV_CLASS = true
               <-> get_class_or_empty n = ["mw-heading"; "mw-heading3"]).
  { apply (joined_class_is n H3_DIV_CLASS); [repeat constructor | reflexivity]. }
  assert (D2 : (String.eqb (join " " (get_class_or_empty n)) H2_DIV_CLASS = true
                /\ get_class_or_empty n = ["mw-heading"; "mw-heading2"])
               \/ (String.eqb (join " " (get_class_or_empty n)) H2_DIV_CLASS = false
                   /\ get_class_or_empty n <> ["mw-heading"; "mw-heading2"])).
  { destruct (String.eqb _ H2_DIV_CLASS); [left | right]; split; try reflexivity.
    - now apply H2.
    - intros H. apply H2 in H. discriminate. }
  assert (D3 : (String.eqb (join " " (get_class_or_empty n)) H3_DIV_CLASS = true
                /\ get_class_or_empty n = ["mw-heading"; "mw-heading3"])
               \/ (String.eqb (join " " (get_class_or_empty n)) H3_DIV_CLASS = false
                   /\ get_class_or_empty n <> ["mw-heading"; "mw-heading3"])).
  { destruct (String.eqb _ H3_DIV_CLASS); [left | right]; split; try reflexivity.
    - now apply H3.
    - intros H. apply H3 in H. discriminate. }
  clear H2 H3. unfold _is_heading_div, _level_of_heading_div.
  destruct (String.eqb_spec (name_of n) "div") as [Hn|Hn];
    destruct D2 as [[C2 E2]|[C2 N2]], D3 as [[C3 E3]|[C3 N3]];
    rewrite C2, C3; simpl;
    try (rewrite E2 in * ); try (rewrite E3 in * );
    repeat split; intros; try tauto; try discriminate; try congruence;
    intuition (try discriminate; try congruence).
Qed.

Example class_list_samples :
  _is_heading_div SampleMore.spaced_heading = true
  /\ _level_of_heading_div SampleMore.spaced_heading = Some 2%Z
  /\ _is_heading_div SampleMore.swapped_heading = false.
Proof. repeat split. Qed.

(* ===================================================================== *)
(** * The title pattern *)
(* ===================================================================== *)

Section TitlePattern.

Lemma dot_star_end_unbroken (s : string) :
  Re.dot_star_end s = true <-> ~ broken_line s.
Proof.
  unfold broken_line. induction s as [|c s IH]; simpl.
  - split; [|reflexivity]. intros _ (a & b & E & _). destruct a; discriminate.
  - destruct (Ascii.eqb_spec c LF) as [->|Hc].
    + destruct s as [|d s].
      * split; [|reflexivity]. intros _ (a & b & E & Hb).
        destruct a as [|x a]; simpl in E.
        -- injection E as <-. now apply Hb.
        -- injection E as _ E. destruct a; discriminate.
      * split; [discriminate|]. intros H. exfalso. apply H.
        exists "", (String d s). split; [reflexivity | discriminate].
    + rewrite IH. split; intros H (a & b & E & Hb); apply H.
      * destruct a as [|x a]; simpl in E; injection E as E1 E2; [congruence|].
        now exists a, b.
      * exists (String c a), b. split; [simpl; now rewrite E | assumption].
Qed.

Lemma race_letter_not_LF (c : ascii) (letter : ascii) :
  Ascii.eqb (lower c) letter = true -> letter <> LF -> lower LF = LF -> c <> LF.
Proof.
  intros H Hl HLF ->. rewrite HLF in H. apply Ascii.eqb_eq in H. congruence.
Qed.

Lemma broken_past_prefix (r a c e : ascii) (rest : string) :
  r <> LF -> a <> LF -> c <> LF -> e <> LF ->
  broken_line (String r (String a (String c (String e rest)))) <-> broken_line rest.
Proof.
  intros Hr Ha Hc He. unfold broken_line. split.
  - intros (x & b & E & Hb).
    destruct x as [|x1 [|x2 [|x3 [|x4 x]]]]; simpl in E; injection E; intros; subst;
      try congruence.
    now exists x, b.
  - intros (x & b & -> & Hb).
    exists (String r (String a (String c (String e x)))), b. split; [reflexivity | assumption].
Qed.

End TitlePattern.

(** X6. A heading text matches the title pattern exactly when it begins
    with the letters of Race, in any letter case, and has no line feed
    with text after it: no word boundary is asked for after the prefix,
    and a text that runs over two lines does not match, whatever its
    beginning. *)
Theorem race_pattern_is_prefix_on_one_line (txt : string) :
  Re.race_match txt = true <-> Re.race_prefix txt = true /\ ~ broken_line txt.
Proof.
  unfold Re.race_match.
  destruct txt as [|r [|a [|c [|e rest]]]];
    try (split; [discriminate | intros [H _]; discriminate H]).
  rewrite andb_true_iff, dot_star_end_unbroken.
  split; intros [Hp Hb]; (split; [exact Hp|]).
  - intros Hbroken. apply Hb.
    unfold Re.race_prefix in Hp. repeat (apply andb_true_iff in Hp as [Hp ?]).
    apply (broken_past_prefix r a c e rest); try assumption;
      eapply race_letter_not_LF; try eassumption; try reflexivity; discriminate.
  - intros Hbroken. apply Hb.
    unfold Re.race_prefix in Hp. repeat (apply andb_true_iff in Hp as [Hp ?]).
    apply (broken_past_prefix r a c e rest); try assumption;
      eapply race_letter_not_LF; try eassumption; try reflexivity; discriminate.
Qed.

Example race_pattern_samples :
  Re.race_match "Race" = true
  /\ Re.race_match "RACE REPORT" = true
  /\ Re.race_match "Racecourse" = true
  /\ Re.race_match "The race" = false
  /\ Re.race_match "Racing" = false
  /\ Re.race_match ("Race" ++ String LF "report") = false.
Proof. repeat split. Qed.

(* ===================================================================== *)
(** * More on the date *)
(* ===================================================================== *)

Section DateMore.

Lemma first_some_In {A B : Type} (f : A -> option B) (l : list A) (y : B) :
  first_some f l = Some y -> exists x, In x l /\ f x = Some y.
Proof.
  induction l as [|x l IH]; simpl; [discriminate|].
  destruct (f x) as [z|] eqn:E.
  - intros [= ->]. exists x. split; [now left | exact E].
  - intros H. destruct (IH H) as (x' & Hin & Hx'). exists x'. split; [now right | exact Hx'].
Qed.

Lemma page_date (pf : Datetime.platform) (soup main_div : node) :
  find_main_content_div soup = Some main_div ->
  date (extract_page_summary pf soup) = pretty_date_of pf (extract_iso_date soup).
Proof.
  intros Hmain. unfold extract_page_summary. rewrite Hmain.
  destruct (extract_opening_paragraphs main_div) as [[lead_html i_count] stop_node].
  destruct (extract_race_section_after main_div stop_node) as [race_html j_count].
  reflexivity.
Qed.

Lemma no_conversion_no_date (pf : Datetime.platform) (iso : string) :
  Datetime.strptime_Ymd iso = None -> pretty_date_of pf (Some iso) = None.
Proof.
  intros H. unfold pretty_date_of, convert. rewrite H. now destruct (truthy iso).
Qed.

(** A subject with a final line feed is longer than the ten characters
    [strptime] takes, or too short for the pattern. *)
Lemma strptime_trailing_newline (d : string) :
  Datetime.strptime_Ymd (d ++ String LF "") = None.
Proof.
  destruct d as [|c1 [|c2 [|c3 [|c4 [|c5 [|c6 [|c7 [|c8 [|c9 [|c10 d]]]]]]]]]];
    try reflexivity.
  - unfold Datetime.strptime_Ymd. simpl.
    change (isdigit LF) with false. now rewrite !andb_false_r.
  - unfold Datetime.strptime_Ymd. simpl. now destruct d.
Qed.

End DateMore.

(** X7. Whatever [extract_iso_date] returns is the value of the datetime
    or of the title attribute of an element of the document, and passes
    the pattern: four digits, two, two, with hyphens between (and at most
    a line feed after them). *)
Theorem iso_date_is_a_matching_attribute (soup : node) (iso : string) :
  extract_iso_date soup = Some iso ->
  Re.iso_match iso = true
  /\ exists t, In t (descendants soup) /\ is_tag t = true
               /\ (get t "datetime" = Some iso \/ get t "title" = Some iso).
Proof.
  unfold extract_iso_date.
  destruct (first_some datetime_hit _) as [dt|] eqn:E1.
  - intros [= ->]. apply first_some_In in E1 as (t & Hin & Hhit).
    unfold find_all_names_attrs_True in Hin. apply filter_In in Hin as [Hin Hp].
    unfold datetime_hit in Hhit. destruct (get t "datetime") as [v|] eqn:Ev; [|discriminate].
    destruct (truthy v && Re.iso_match v) eqn:Em; [|discriminate].
    injection Hhit as ->. apply andb_true_iff in Em as [_ Em].
    split; [exact Em|]. exists t. repeat split; try assumption.
    + now destruct (is_tag t).
    + now left.
  - intros E2. apply first_some_In in E2 as (t & Hin & Hhit).
    unfold find_all_with_attr in Hin. apply filter_In in Hin as [Hin Hp].
    unfold title_hit in Hhit. destruct (get t "title") as [v|] eqn:Ev; [|discriminate].
    destruct (Re.iso_match v) eqn:Em; [|discriminate].
    injection Hhit as ->. split; [exact Em|]. exists t. repeat split; try assumption.
    + now destruct (is_tag t).
    + now right.
Qed.

Lemma iso_date_is_a_matching_attribute_sample :
  Re.iso_match "2015-11-01" = true
  /\ exists t, In t (descendants Sample.page) /\ is_tag t = true
               /\ (get t "datetime" = Some "2015-11-01" \/ get t "title" = Some "2015-11-01").
Proof.
  apply (iso_date_is_a_matching_attribute Sample.page "2015-11-01"). reflexivity.
Defined.

(** X8. The pattern's [$] lets a value with a line feed at its end
    through, and [extract_iso_date] returns it as it is; such a value
    never converts, on any platform, and the date of the page is null. *)
Theorem date_with_final_newline_is_null
  (pf : Datetime.platform) (soup main_div : node) (d : string) :
  find_main_content_div soup = Some main_div ->
  extract_iso_date soup = Some (d ++ String LF "") ->
  date (extract_page_summary pf soup) = None.
Proof.
  intros Hmain Hiso. rewrite (page_date pf soup main_div Hmain), Hiso.
  apply no_conversion_no_date, strptime_trailing_newline.
Qed.

Lemma date_with_final_newline_sample :
  extract_iso_date SampleMore.trailing_newline_page = Some ("2015-11-01" ++ String LF "")
  /\ date (extract_page_summary Datetime.unix SampleMore.trailing_newline_page) = None.
Proof.
  split; [reflexivity|].
  apply (date_with_final_newline_is_null Datetime.unix SampleMore.trailing_newline_page
           Sample.article "2015-11-01"); reflexivity.
Defined.

(* ===================================================================== *)
(** * More on category discovery *)
(* ===================================================================== *)

Section DiscoveryMore.

Lemma digit_val_range (c : ascii) : isdigit c = true -> (0 <= digit_val c <= 9)%Z.
Proof.
  unfold isdigit, digit_val. intros H. apply andb_true_iff in H as [H1 H2].
  apply Nat.leb_le in H1, H2. lia.
Qed.

Lemma year_here_range (s : string) :
  Re.year_here s = true ->
  (1900 <= int_of_digits (String.substring 0 4 s) <= 2099)%Z.
Proof.
  unfold Re.year_here.
  destruct s as [|a [|b [|c [|d rest]]]]; try discriminate.
  intros H. apply andb_true_iff in H as [H _].
  apply andb_true_iff in H as [H Hd]. apply andb_true_iff in H as [H Hc].
  apply digit_val_range in Hc, Hd.
  assert (Hsub : String.substring 0 4 (String a (String b (String c (String d rest))))
                 = String a (String b (String c (String d "")))).
  { simpl. now destruct rest. }
  rewrite Hsub. unfold int_of_digits. cbn [list_ascii_of_string fold_left].
  apply orb_true_iff in H as [H|H]; apply andb_true_iff in H as [Ha Hb];
    apply Ascii.eqb_eq in Ha, Hb; subst a b.
  - change (digit_val "1") with 1%Z. change (digit_val "9") with 9%Z. lia.
  - change (digit_val "2") with 2%Z. change (digit_val "0") with 0%Z. lia.
Qed.

Lemma year_search_range (s : string) (prev : bool) (group0 : string) :
  Re.year_search_from prev s = Some group0 ->
  (1900 <= int_of_digits group0 <= 2099)%Z.
Proof.
  revert prev group0. induction s as [|c s IH]; intros prev group0; [discriminate|].
  cbn [Re.year_search_from].
  destruct (negb prev && Re.year_here (String c s)) eqn:E.
  - intros [= <-]. apply andb_true_iff in E as [_ E].
    now apply (year_here_range (String c s)).
  - apply IH.
Qed.

(** What an anchor that passes every test of the loop looks like. *)
Lemma year_link_of_passes (a : node) (y : Z) (href : string) :
  year_link_of a = Some (y, href) ->
  (1900 <= y <= 2099)%Z
  /\ get a "href" = Some href
  /\ existsb (startswith href) NON_ARTICLE_PREFIXES = false
  /\ (contains (strip (get_text a)) "Grand Prix" = true
      \/ contains href "Grand_Prix" = true).
Proof.
  unfold year_link_of.
  destruct (negb (truthy (strip (get_text a))) || negb (truthy _)) eqn:Hempty; [discriminate|].
  destruct (Re.YEAR_RE_search (strip (get_text a))) as [group0|] eqn:Hyear; [|discriminate].
  destruct (negb (contains (strip (get_text a)) "Grand Prix") && negb (contains _ "Grand_Prix"))
    eqn:Hgp; [discriminate|].
  destruct (existsb _ NON_ARTICLE_PREFIXES) eqn:Hns; [discriminate|].
  intros [= <- <-]. split; [exact (year_search_range _ false _ Hyear)|].
  apply orb_false_iff in Hempty as [_ Hhref]. apply negb_false_iff in Hhref.
  destruct (get a "href") as [h|]; [|discriminate]. split; [reflexivity|].
  split; [exact Hns|].
  apply andb_false_iff in Hgp as [Hgp|Hgp]; apply negb_false_iff in Hgp; tauto.
Qed.

(** The year of an anchor that passes is the one the pattern finds in its
    trimmed text. *)
Lemma year_link_of_year (a : node) (y : Z) (href : string) :
  year_link_of a = Some (y, href) ->
  exists group0, Re.YEAR_RE_search (strip (get_text a)) = Some group0
                 /\ y = int_of_digits group0.
Proof.
  unfold year_link_of.
  destruct (negb (truthy (strip (get_text a))) || negb (truthy _)); [discriminate|].
  destruct (Re.YEAR_RE_search (strip (get_text a))) as [group0|]; [|discriminate].
  destruct (negb (contains (strip (get_text a)) "Grand Prix") && negb (contains _ "Grand_Prix"));
    [discriminate|].
  destruct (existsb _ NON_ARTICLE_PREFIXES); [discriminate|].
  intros [= <- _]. now exists group0.
Qed.

(** An entry of the mapping comes from an anchor of the page. *)
Lemma parsed_entry_anchor (soup : node) (y : Z) (url : string) :
  In (y, url) (parse_year_links_from_category soup) ->
  exists a href, In a (anchors soup) /\ year_link_of a = Some (y, href)
                 /\ url = SITE ++ href.
Proof.
  unfold parse_year_links_from_category. fold (anchors soup).
  set (raw := fold_left record_link (anchors soup) []).
  intros Hin. apply in_map_iff in Hin as [k [[= -> <-] Hk]].
  apply -> DictFacts.sorted_In in Hk.
  destruct (DictFacts.getitem_of_key "" raw y Hk) as (u & Hget & ->).
  unfold raw in Hget. rewrite record_links_get in Hget. cbn [Dict.get] in Hget.
  destruct (first_link_for y (anchors soup)) as [href|] eqn:Hfirst; [|discriminate].
  cbn [option_map] in Hget. injection Hget as <-.
  unfold first_link_for in Hfirst. apply first_some_In in Hfirst as (a & Ha & Hhit).
  destruct (year_link_of a) as [[y' h]|] eqn:Hlink; [|discriminate].
  destruct (Z.eqb_spec y' y) as [->|]; [|discriminate]. injection Hhit as ->.
  now exists a, href.
Qed.

Lemma anchor_href (soup a : node) (href : string) :
  In a (anchors soup) -> get a "href" = Some href -> startswith href "/wiki/" = true.
Proof.
  unfold anchors, select_tag_attr_prefix. intros Hin Hget.
  apply filter_In in Hin as [_ Hp]. rewrite Hget in Hp.
  now apply andb_true_iff in Hp as [_ Hp].
Qed.

End DiscoveryMore.

(** X9. Every entry of the mapping that [parse_year_links_from_category]
    returns comes from an anchor of the page: the year is the first year
    that the pattern finds in the anchor's trimmed text and lies from 1900
    to 2099; the URL is the site's scheme and host followed by the
    anchor's [href], a path beginning with [/wiki/] that is never one of
    a talk, category, file or help page; and the anchor names a Grand
    Prix in its text or in its path. *)
Theorem category_links_are_article_links_of_plausible_years
  (soup : node) (y : Z) (url : string) :
  In (y, url) (parse_year_links_from_category soup) ->
  (1900 <= y <= 2099)%Z
  /\ exists a href,
       In a (anchors soup)
       /\ get a "href" = Some href
       /\ year_link_of a = Some (y, href)
       /\ (exists group0, Re.YEAR_RE_search (strip (get_text a)) = Some group0
                          /\ y = int_of_digits group0)
       /\ url = SITE ++ href
       /\ startswith href "/wiki/" = true
       /\ existsb (startswith href) NON_ARTICLE_PREFIXES = false
       /\ (contains (strip (get_text a)) "Grand Prix" = true
           \/ contains href "Grand_Prix" = true).
Proof.
  intros Hin. apply parsed_entry_anchor in Hin as (a & href & Ha & Hlink & ->).
  pose proof (year_link_of_year a y href Hlink) as Hyear.
  pose proof (year_link_of_passes a y href Hlink) as (Hy & Hget & Hns & Hgp).
  split; [exact Hy|]. exists a, href. repeat split; try assumption.
  now apply (anchor_href soup a).
Qed.

Lemma category_links_sample :
  (1900 <= 2014 <= 2099)%Z
  /\ exists a href,
       In a (anchors SampleRun.category)
       /\ get a "href" = Some href
       /\ year_link_of a = Some (2014%Z, href)
       /\ (exists group0, Re.YEAR_RE_search (strip (get_text a)) = Some group0
                          /\ 2014%Z = int_of_digits group0)
       /\ "https://en.wikipedia.org/wiki/2014_Mexican_Grand_Prix" = SITE ++ href
       /\ startswith href "/wiki/" = true
       /\ existsb (startswith href) NON_ARTICLE_PREFIXES = false
       /\ (contains (strip (get_text a)) "Grand Prix" = true
           \/ contains href "Grand_Prix" = true).
Proof.
  apply (category_links_are_article_links_of_plausible_years SampleRun.category 2014%Z
           "https://en.wikipedia.org/wiki/2014_Mexican_Grand_Prix").
  vm_compute. tauto.
Defined.

(* ===================================================================== *)
(** * More on the run *)
(* ===================================================================== *)

Section RunMore.
Import DictFacts.

Lemma StronglySorted_filter {A : Type} (R : A -> A -> Prop) (p : A -> bool) (l : list A) :
  StronglySorted R l -> StronglySorted R (filter p l).
Proof.
  induction 1 as [|x l Hs IH Hx]; simpl; [constructor|].
  destruct (p x); [|exact IH]. constructor; [exact IH|].
  rewrite Forall_forall in *. intros a Ha. apply filter_In in Ha as [Ha _]. now apply Hx.
Qed.

Lemma sorted_strict (l : list Z) : NoDup l -> StronglySorted Z.lt (Dict.sorted l).
Proof.
  intros H. apply ascending_strict; [apply sorted_ascending | now apply sorted_NoDup].
Qed.

(** A local run that writes a document. *)
Lemma written_local (w : world) (args : arguments) (local : string)
  (path : string) (payload : Dict.dict page_summary) :
  local_path args = Some local ->
  main w args = Written path payload ->
  exists y page,
    only_year args = Some y
    /\ read_text w local = Some page
    /\ path = output args
    /\ payload = [(y, extract_page_summary (host w) page)].
Proof.
  intros Hlocal Hmain. unfold main in Hmain. rewrite Hlocal in Hmain.
  destruct (only_year args) as [y|]; [|discriminate].
  destruct (read_text w local) as [page|]; [|discriminate].
  injection Hmain as <- <-. now exists y, page.
Qed.

Lemma restrict_to_keys (only : Z) (l : Dict.dict string) (y : Z) :
  In y (Dict.keys (restrict_to (Some only) l)) -> y = only.
Proof.
  intros H. apply keys_In in H as [url H]. apply filter_In in H as [_ H].
  simpl in H. now apply Z.eqb_eq in H.
Qed.



End RunMore.


Example run_stops_samples :
  main SampleMore.broken_world SampleRun.remote_run = Raised
  /\ main SampleMore.broken_world SampleMore.local_run = Raised
  /\ main SampleMore.world_2014 SampleRun.remote_run
     = Written "out.json" [(1990%Z, extract_page_summary Datetime.unix Sample.page)].
Proof. repeat split. Qed.

(** X11. The document a run writes has its years in strictly ascending
    order, each once. *)
Theorem written_years_ascend
  (w : world) (args : arguments) (path : string) (payload : Dict.dict page_summary) :
  main w args = Written path payload ->
  StronglySorted Z.lt (Dict.keys payload).
Proof.
  intros Hmain. destruct (local_path args) as [local|] eqn:Hlocal.
  - destruct (written_local w args local path payload Hlocal Hmain)
      as (y & page & _ & _ & _ & ->).
    repeat constructor.
  - destruct (written_remote w args path payload Hlocal Hmain)
      as (cat & _ & _ & _ & _ & -> & Hnd & _).
    rewrite keys_of_visited_years. now apply StronglySorted_filter, sorted_strict.
Qed.

Lemma written_years_ascend_sample :
  exists payload,
    main SampleMore.open_world SampleRun.remote_run = Written "out.json" payload
    /\ Dict.keys payload = [1990%Z; 2014%Z; 2015%Z]
    /\ StronglySorted Z.lt (Dict.keys payload).
Proof.
  eexists. split; [reflexivity|]. split; [reflexivity|].
  apply (written_years_ascend SampleMore.open_world SampleRun.remote_run "out.json").
  reflexivity.
Defined.

(** X12. Under [--only-year], the document written holds at most one
    entry, and its year is the year asked for. *)
Theorem only_year_writes_that_year_alone
  (w : world) (args : arguments) (wanted : Z)
  (path : string) (payload : Dict.dict page_summary) :
  only_year args = Some wanted ->
  main w args = Written path payload ->
  length payload <= 1 /\ forall y, In y (Dict.keys payload) -> y = wanted.
Proof.
  intros Honly Hmain.
  assert (Hboth : NoDup (Dict.keys payload)
                  /\ forall y, In y (Dict.keys payload) -> y = wanted).
  { destruct (local_path args) as [local|] eqn:Hlocal.
    - destruct (written_local w args local path payload Hlocal Hmain)
        as (y & page & Hy & _ & _ & ->).
      rewrite Honly in Hy. injection Hy as <-. split.
      + repeat constructor. simpl. tauto.
      + intros y Hin. simpl in Hin. destruct Hin as [<-|[]]. reflexivity.
    - destruct (written_remote w args path payload Hlocal Hmain)
        as (cat & _ & _ & _ & _ & -> & Hnd & Hkept).
      split.
      + rewrite keys_of_visited_years. now apply NoDup_filter, DictFacts.sorted_NoDup.
      + intros y Hy.
        apply keys_filter_map_visited in Hy. apply -> DictFacts.sorted_In in Hy.
        rewrite Hkept, Honly in Hy. apply keys_In in Hy as [url Hy].
        apply filter_In in Hy as [Hy _].
        apply (restrict_to_keys wanted (parse_year_links_from_category cat) y).
        now apply In_keys with url. }
  destruct Hboth as [Hnd Hkeys]. split; [|exact Hkeys].
  replace (length payload) with (length (Dict.keys payload))
    by (unfold Dict.keys; apply length_map).
  destruct (Dict.keys payload) as [|a [|b rest]]; simpl; try lia.
  exfalso. inversion Hnd as [|? ? Hfresh _]; subst. apply Hfresh.
  rewrite (Hkeys a), (Hkeys b); simpl; tauto.
Qed.

Lemma only_year_sample :
  exists payload,
    main SampleMore.open_world SampleMore.only_2014 = Written "out.json" payload
    /\ length payload <= 1 /\ forall y, In y (Dict.keys payload) -> y = 2014%Z.
Proof.
  eexists. split; [reflexivity|].
  apply (only_year_writes_that_year_alone SampleMore.open_world SampleMore.only_2014
           2014%Z "out.json"); reflexivity.
Defined.

Section Payload.
Import DictFacts.

Lemma In_visited (w : world) (filtered : Dict.dict string) (ys : list Z)
  (entry : Z * page_summary) :
  In entry (filter_map (visited w filtered) ys)
  <-> exists y, In y ys /\ visited w filtered y = Some entry.
Proof.
  induction ys as [|x ys IH]; simpl.
  - split; [tauto | intros (y & [] & _)].
  - destruct (visited w filtered x) as [e|] eqn:E; simpl; rewrite IH; split.
    + intros [<-|(y & Hy & Hv)]; [exists x | exists y]; tauto.
    + intros (y & [<-|Hy] & Hv); [left; congruence | right; now exists y].
    + intros (y & Hy & Hv). exists y. tauto.
    + intros (y & [<-|Hy] & Hv); [congruence | now exists y].
Qed.

End Payload.

(** X13. When a remote run writes its document, the document holds, for
    each year kept, the summary of its page if the page is served, and
    nothing else: a year whose page answers with an HTTP error is left
    out, and the other years are not affected. *)
Theorem written_entries_are_the_pages_served
  (w : world) (args : arguments) (cat : node)
  (path : string) (payload : Dict.dict page_summary) :
  local_path args = None ->
  fetch_url w (category_url args) = Some cat ->
  main w args = Written path payload ->
  forall y summary,
    In (y, summary) payload
    <-> exists url page,
          In (y, url) (kept_years w args cat)
          /\ unreachable w url = false
          /\ fetch_url w url = Some page
          /\ summary = extract_page_summary (host w) page.
Proof.
  intros Hremote Hcat Hmain.
  destruct (written_remote w args path payload Hremote Hmain)
    as (cat' & _ & Hcat' & _ & Hreach & -> & Hnd & _).
  rewrite Hcat in Hcat'. injection Hcat' as <-.
  intros y summary. rewrite In_visited. split.
  - intros (y' & Hy' & Hv). apply -> DictFacts.sorted_In in Hy'.
    pose proof (Hreach y' Hy') as Hr.
    destruct (DictFacts.getitem_of_key "" _ _ Hy') as (url & Hget & Hitem).
    unfold visited in Hv. rewrite Hitem in Hv, Hr.
    destruct (fetch_url w url) as [page|] eqn:Hpage; [|discriminate].
    injection Hv as <- <-. exists url, page. split; [|tauto].
    now apply DictFacts.get_Some_In.
  - intros (url & page & Hin & _ & Hpage & ->). exists y. split.
    + apply DictFacts.sorted_In. now apply In_keys with url.
    + unfold visited, Dict.getitem.
      now rewrite (DictFacts.In_get _ y url Hnd Hin), Hpage.
Qed.

Lemma written_entries_sample :
  In (2015%Z, extract_page_summary Datetime.unix Sample.page)
    [(2015%Z, extract_page_summary Datetime.unix Sample.page)]
  <-> exists url page,
        In (2015%Z, url) (kept_years SampleRun.world_2015 SampleRun.remote_run
                            SampleRun.category)
        /\ unreachable SampleRun.world_2015 url = false
        /\ fetch_url SampleRun.world_2015 url = Some page
        /\ extract_page_summary Datetime.unix Sample.page
           = extract_page_summary Datetime.unix page.
Proof.
  apply (written_entries_are_the_pages_served SampleRun.world_2015 SampleRun.remote_run
           SampleRun.category "out.json"
           [(2015%Z, extract_page_summary Datetime.unix Sample.page)]
           eq_refl eq_refl eq_refl 2015%Z
           (extract_page_summary Datetime.unix Sample.page)).
Defined.

(** The sample run of 2015: 1990 and 2014 are kept but their pages answer
    with an error, 2016 is not kept; the document holds 2015 alone. *)
Example written_entries_example :
  main SampleRun.world_2015 SampleRun.remote_run
  = Written "out.json" [(2015%Z, extract_page_summary Datetime.unix Sample.page)].
Proof. reflexivity. Qed.

(** X14. On a mapping with one entry per year, the year filter is a plain
    filter: it keeps the entries of the years up to the current one (the
    current one left out on request), with their URLs and in their order;
    and it commutes with the restriction to one year. *)
Theorem year_filter_keeps_entries_in_order
  (now : Z) (excl : bool) (only : option Z) (year_links : Dict.dict string) :
  NoDup (Dict.keys year_links) ->
  filter_years now excl year_links = filter (eligible now excl) year_links
  /\ filter_years now excl (restrict_to only year_links)
     = restrict_to only (filter_years now excl year_links).
Proof.
  intros Hnd.
  assert (H1 : filter_years now excl year_links = filter (eligible now excl) year_links)
    by now apply filter_years_eligible.
  split; [exact H1|]. rewrite H1. destruct only as [wanted|]; simpl; [|exact H1].
  rewrite filter_years_eligible by now apply DictFacts.NoDup_keys_filter.
  induction year_links as [|item l IH]; simpl; [reflexivity|].
  assert (Hl : NoDup (Dict.keys l)) by (now inversion Hnd).
  assert (IH' : filter (eligible now excl) (filter (fun i : Z * string => (fst i =? wanted)%Z) l)
                = filter (fun i : Z * string => (fst i =? wanted)%Z)
                    (filter (eligible now excl) l)).
  { apply IH; [assumption | now apply filter_years_eligible]. }
  destruct (fst item =? wanted)%Z eqn:E1, (eligible now excl item) eqn:E2; simpl;
    rewrite ?E1, ?E2, IH'; reflexivity.
Qed.

Lemma year_filter_keeps_entries_sample :
  filter_years 2015 true (parse_year_links_from_category SampleRun.category)
  = [(1990%Z, "https://en.wikipedia.org/wiki/1990_Mexican_Grand_Prix");
     (2014%Z, "https://en.wikipedia.org/wiki/2014_Mexican_Grand_Prix")]
  /\ filter_years 2015 true
       (restrict_to (Some 2014%Z) (parse_year_links_from_category SampleRun.category))
     = restrict_to (Some 2014%Z)
         (filter_years 2015 true (parse_year_links_from_category SampleRun.category)).
Proof.
  destruct (year_filter_keeps_entries_in_order 2015 true (Some 2014%Z)
              (parse_year_links_from_category SampleRun.category)) as [H1 H2].
  - vm_compute. repeat constructor; simpl; intuition discriminate.
  - split; [rewrite H1; reflexivity | exact H2].
Defined.

(* ===================================================================== *)
(** * The requests of a run *)
(* ===================================================================== *)

Section Requests.

Lemma requests_app (t1 t2 : list event) :
  requests (t1 ++ t2)%list = (requests t1 ++ requests t2)%list.
Proof.
  unfold requests. induction t1 as [|e t1 IH]; simpl; [reflexivity|].
  destruct e; simpl; now rewrite IH.
Qed.

Lemma pauses_app (t1 t2 : list event) : pauses (t1 ++ t2)%list = pauses t1 + pauses t2.
Proof. unfold pauses. now rewrite filter_app, length_app. Qed.

Lemma requests_of_fetch (w : world) (pause : bool) (url : string) :
  requests (events_of_fetch w pause url) = [url].
Proof.
  unfold events_of_fetch, fetch_url_io.
  destruct (unreachable w url); [reflexivity|].
  destruct (fetch_url w url); [destruct pause|]; reflexivity.
Qed.

Lemma pauses_of_fetch (w : world) (pause : bool) (url : string) :
  pauses (events_of_fetch w pause url)
  = if pause then length (answered w [url]) else 0.
Proof.
  unfold events_of_fetch, fetch_url_io, answered. simpl.
  destruct (unreachable w url); [now destruct pause|].
  destruct (fetch_url w url); destruct pause; reflexivity.
Qed.

Lemma requests_of_fetches (w : world) (pause : bool) (urls : list string) :
  requests (flat_map (events_of_fetch w pause) urls) = urls.
Proof.
  induction urls as [|u urls IH]; simpl; [reflexivity|].
  now rewrite requests_app, requests_of_fetch, IH.
Qed.

Lemma pauses_of_fetches (w : world) (pause : bool) (urls : list string) :
  pauses (flat_map (events_of_fetch w pause) urls)
  = if pause then length (answered w urls) else 0.
Proof.
  induction urls as [|u urls IH]; simpl; [now destruct pause|].
  rewrite pauses_app, pauses_of_fetch, IH. unfold answered. simpl.
  destruct pause; [|reflexivity].
  destruct (negb (unreachable w u) && _); reflexivity.
Qed.

(** The loop with its events: it ends as the loop does, and asks for the
    pages in turn up to the first that cannot be reached. *)
Lemma visit_all_io_unfolded (w : world) (pause : bool) (filtered : Dict.dict string)
  (ys : list Z) (results : Dict.dict page_summary) (trace : list event) :
  visit_all_io w pause filtered ys results trace
  = (visit_all w filtered ys results,
     (trace ++ flat_map (events_of_fetch w pause)
                 (attempted w (map (Dict.getitem "" filtered) ys)))%list).
Proof.
  revert results trace. induction ys as [|y ys IH]; intros results trace.
  - simpl. now rewrite app_nil_r.
  - cbn [visit_all_io visit_all map attempted].
    destruct (unreachable w (Dict.getitem "" filtered y)) eqn:Hreach.
    + unfold fetch_url_io. rewrite Hreach. cbn [flat_map].
      unfold events_of_fetch, fetch_url_io. rewrite Hreach. cbn [snd].
      now rewrite app_nil_r.
    + cbn [flat_map]. unfold visit, events_of_fetch, fetch_url_io. rewrite Hreach.
      destruct (fetch_url w (Dict.getitem "" filtered y)); rewrite IH; cbn [snd];
        now rewrite <- app_assoc.
Qed.

(** The events of a remote run. *)
Lemma remote_trace (w : world) (pause : bool) (args : arguments) :
  local_path args = None ->
  snd (main_io w pause args)
  = flat_map (events_of_fetch w pause) (attempted w (planned_urls w args)).
Proof.
  intros Hremote. unfold main_io, planned_urls. rewrite Hremote.
  cbn [attempted].
  destruct (unreachable w (category_url args)) eqn:Hreach.
  - cbn [flat_map]. unfold events_of_fetch, fetch_url_io. now rewrite Hreach.
  - cbn [flat_map]. unfold events_of_fetch at 1. unfold fetch_url_io. rewrite Hreach.
    destruct (fetch_url w (category_url args)) as [cat|]; [|reflexivity].
    fold (kept_years w args cat). rewrite visit_all_io_unfolded.
    destruct (visit_all w _ _ []); reflexivity.
Qed.

(** The run with its events ends as the run does. *)
Lemma main_io_outcome (w : world) (pause : bool) (args : arguments) :
  fst (main_io w pause args) = main w args.
Proof.
  unfold main_io, main.
  destruct (local_path args) as [local|].
  - destruct (only_year args); [destruct (read_text w local)|]; reflexivity.
  - unfold fetch_url_io. destruct (unreachable w (category_url args)); [reflexivity|].
    destruct (fetch_url w (category_url args)) as [cat|]; [|reflexivity].
    cbv zeta. rewrite visit_all_io_unfolded. cbn [fst].
    destruct (visit_all w _ _ []); reflexivity.
Qed.

End Requests.

(** X15. The events of a run, in order: none in local mode; in remote mode
    those of fetching, one after the other, the category page and then,
    when it is served, the page of each year kept, by ascending year, up
    to the first request that cannot be reached. Each request that is
    answered with a page is followed at once by the pause, when a delay
    is asked for; no other request is. *)
Theorem run_events (w : world) (pause : bool) (args : arguments) :
  snd (main_io w pause args)
  = match local_path args with
    | Some _ => []
    | None => flat_map (events_of_fetch w pause) (attempted w (planned_urls w args))
    end
  /\ forall url,
       events_of_fetch w pause url
       = Get url :: (if pause && negb (unreachable w url)
                        && match fetch_url w url with Some _ => true | None => false end
                     then [Sleep] else []).
Proof.
  split.
  - destruct (local_path args) as [local|] eqn:Hlocal; [|now apply remote_trace].
    unfold main_io. rewrite Hlocal.
    destruct (only_year args); [destruct (read_text w local)|]; reflexivity.
  - intros url. unfold events_of_fetch, fetch_url_io.
    destruct (unreachable w url); [now rewrite andb_false_r|].
    destruct (fetch_url w url), pause; reflexivity.
Qed.

Example run_events_sample :
  snd (main_io SampleMore.broken_world true SampleRun.remote_run)
  = [Get SampleRun.category_address; Sleep;
     Get "https://en.wikipedia.org/wiki/1990_Mexican_Grand_Prix";
     Get "https://en.wikipedia.org/wiki/2014_Mexican_Grand_Prix"].
Proof. reflexivity. Qed.



(** X17. A run pauses once after each request that is answered, when the
    delay asked for is positive, and never otherwise; a request that ends
    in an error is not followed by a pause. *)
Theorem run_pauses_after_answered_requests
  (w : world) (pause : bool) (args : arguments) :
  pauses (snd (main_io w pause args))
  = if pause then length (answered w (requests (snd (main_io w pause args)))) else 0.
Proof.
  destruct (local_path args) as [path|] eqn:Hlocal.
  - unfold main_io. rewrite Hlocal.
    destruct (only_year args); [destruct (read_text w path)|]; now destruct pause.
  - rewrite (remote_trace w pause args Hlocal).
    now rewrite requests_of_fetches, pauses_of_fetches.
Qed.

(* ===================================================================== *)
(** * The year pattern *)
(* ===================================================================== *)

Section YearPattern.

Lemma year_search_step (prev : bool) (c : ascii) (s : string) :
  Re.year_search_from prev (String c s)
  = if negb prev && Re.year_here (String c s)
    then Some (String.substring 0 4 (String c s))
    else Re.year_search_from (isword c) s.
Proof. reflexivity. Qed.

Lemma year_here_split (s : string) :
  Re.year_here s = true
  <-> exists g post, s = g ++ post /\ year_digits g = true /\ starts_outside_word post.
Proof.
  split.
  - unfold Re.year_here.
    destruct s as [|a [|b [|c [|d rest]]]]; try discriminate.
    intros H. apply andb_true_iff in H as [H Hrest].
    exists (String a (String b (String c (String d "")))), rest.
    split; [reflexivity|]. split; [exact H|].
    destruct rest; simpl; [exact I | now apply negb_true_iff].
  - intros (g & post & -> & Hg & Hpost).
    destruct g as [|a [|b [|c [|d [|? ?]]]]]; try discriminate.
    simpl in *. rewrite Hg. simpl.
    destruct post; simpl in *; [reflexivity | now rewrite Hpost].
Qed.

Lemma year_digits_substring (g post : string) :
  year_digits g = true -> String.substring 0 4 (g ++ post) = g.
Proof.
  destruct g as [|a [|b [|c [|d [|? ?]]]]]; try discriminate.
  intros _. simpl. now destruct post.
Qed.

Lemma ends_outside_word_cons (c : ascii) (pre : string) :
  ends_outside_word (String c pre) ->
  (pre = "" -> isword c = false) /\ (pre <> "" -> ends_outside_word pre).
Proof.
  intros [H|(p & d & E & Hd)]; [discriminate|]. split.
  - intros ->. destruct p as [|x p]; simpl in E.
    + now injection E as ->.
    + injection E as _ E. destruct p; discriminate.
  - intros Hne. right. destruct p as [|x p]; simpl in E.
    + injection E as _ E. congruence.
    + injection E as _ E. now exists p, d.
Qed.

Lemma ends_outside_word_snoc (c : ascii) (pre : string) :
  (pre = "" -> isword c = false) -> (pre <> "" -> ends_outside_word pre) ->
  ends_outside_word (String c pre).
Proof.
  intros H1 H2. right. destruct pre as [|x pre].
  - exists "", c. split; [reflexivity | now apply H1].
  - destruct (H2 ltac:(discriminate)) as [E|(p & d & E & Hd)]; [discriminate|].
    exists (String c p), d. split; [simpl; now rewrite E | exact Hd].
Qed.

(** The search, from a place where the character before is a word
    character or not as [prev] says: what it finds, and that nothing of
    the kind stands before. *)
Lemma year_search_sound (s : string) (prev : bool) (g : string) :
  Re.year_search_from prev s = Some g ->
  exists pre post,
    s = pre ++ g ++ post
    /\ year_digits g = true
    /\ (pre = "" -> prev = false)
    /\ (pre <> "" -> ends_outside_word pre)
    /\ starts_outside_word post
    /\ forall pre' g' post',
         s = pre' ++ g' ++ post' ->
         year_digits g' = true ->
         (pre' = "" -> prev = false) ->
         (pre' <> "" -> ends_outside_word pre') ->
         starts_outside_word post' ->
         String.length pre <= String.length pre'.
Proof.
  revert prev g. induction s as [|c s IH]; intros prev g; [discriminate|].
  rewrite year_search_step.
  destruct (negb prev && Re.year_here (String c s)) eqn:E.
  - apply andb_true_iff in E as [Hprev Hhere].
    apply year_here_split in Hhere as (g0 & post & Hs & Hg & Hpost).
    rewrite Hs, (year_digits_substring g0 post Hg). intros [= <-].
    exists "", post. repeat split; try assumption.
    + intros _. now apply negb_true_iff.
    + congruence.
    + intros. simpl. lia.
  - intros H. destruct (IH _ _ H) as (pre & post & -> & Hg & H1 & H2 & Hpost & Hmin).
    exists (String c pre), post. repeat split; try assumption; try discriminate.
    + intros _. now apply ends_outside_word_snoc.
    + intros pre' g' post' E' Hg' H1' H2' Hpost'.
      destruct pre' as [|c' p'].
      * exfalso. change ("" ++ g' ++ post') with (g' ++ post') in E'.
        assert (Hhere : Re.year_here (String c (pre ++ g ++ post)) = true)
          by (apply year_here_split; now exists g', post').
        rewrite (H1' eq_refl), Hhere in E. discriminate.
      * change (String c' p' ++ g' ++ post') with (String c' (p' ++ g' ++ post')) in E'.
        injection E' as <- E'.
        destruct (ends_outside_word_cons c p' (H2' ltac:(discriminate))) as [Hc Hrest].
        simpl. apply le_n_S. now apply (Hmin p' g' post').
Qed.

Lemma year_search_complete (pre g post : string) (prev : bool) :
  year_digits g = true ->
  (pre = "" -> prev = false) ->
  (pre <> "" -> ends_outside_word pre) ->
  starts_outside_word post ->
  Re.year_search_from prev (pre ++ g ++ post) <> None.
Proof.
  intros Hg H1 H2 Hpost. revert prev H1 H2.
  induction pre as [|c pre IH]; intros prev H1 H2.
  - assert (Hhere : Re.year_here (g ++ post) = true)
      by (apply year_here_split; now exists g, post).
    destruct g as [|a g]; [discriminate|].
    change ("" ++ String a g ++ post) with (String a (g ++ post)).
    change (String a g ++ post) with (String a (g ++ post)) in Hhere.
    rewrite year_search_step, (H1 eq_refl), Hhere. discriminate.
  - change (String c pre ++ g ++ post) with (String c (pre ++ g ++ post)).
    rewrite year_search_step.
    destruct (negb prev && Re.year_here _); [discriminate|].
    destruct (ends_outside_word_cons c pre (H2 ltac:(discriminate))) as [Hc Hrest].
    apply IH; assumption.
Qed.

End YearPattern.

(** X20. The year taken from a link text stands in the text as a whole
    word of four digits beginning with 19 or 20, and is the first such
    word of the text; and a year is found whenever such a word stands
    anywhere in the text. Digits inside a longer word or number are not
    taken for a year. *)
Theorem year_is_the_first_whole_word_year (text : string) :
  (forall g, Re.YEAR_RE_search text = Some g ->
             exists pre,
               whole_word_year_at text pre g
               /\ forall pre' g', whole_word_year_at text pre' g' ->
                                  String.length pre <= String.length pre')
  /\ (Re.YEAR_RE_search text = None ->
      forall pre g, ~ whole_word_year_at text pre g).
Proof.
  unfold Re.YEAR_RE_search, whole_word_year_at. split.
  - intros g H.
    apply year_search_sound in H as (pre & post & E & Hg & _ & Hpre & Hpost & Hmin).
    exists pre. split.
    + exists post. repeat split; try assumption.
      destruct pre; [now left | apply Hpre; discriminate].
    + intros pre' g' (post' & E' & Hg' & Hpre' & Hpost').
      apply (Hmin pre' g' post'); try assumption; try reflexivity.
      destruct Hpre' as [->|H]; [congruence | now right].
  - intros Hnone pre g (post & E & Hg & Hpre & Hpost).
    apply (year_search_complete pre g post false); try assumption; try reflexivity.
    + intros Hne. destruct Hpre as [->|H]; [congruence | now right].
    + now rewrite <- E.
Qed.

Example year_pattern_samples :
  Re.YEAR_RE_search "2014 Mexican Grand Prix" = Some "2014"
  /\ Re.YEAR_RE_search "The 2014 and 2015 races" = Some "2014"
  /\ Re.YEAR_RE_search "Grand Prix of 1990, Mexico" = Some "1990"
  /\ Re.YEAR_RE_search "x2031 Grand Prix" = None
  /\ Re.YEAR_RE_search "20155 Grand Prix" = None
  /\ Re.YEAR_RE_search "1899 Grand Prix" = None.
Proof. repeat split. Qed.

Lemma year_pattern_sample :
  exists pre,
    whole_word_year_at "The 2014 and 2015 races" pre "2014"
    /\ forall pre' g', whole_word_year_at "The 2014 and 2015 races" pre' g' ->
                       String.length pre <= String.length pre'.
Proof.
  apply (proj1 (year_is_the_first_whole_word_year "The 2014 and 2015 races") "2014").
  reflexivity.
Defined.

(* ===================================================================== *)
(** * The heading text *)
(* ===================================================================== *)

Section HeadingText.

Lemma rstrip_step (c : ascii) (s : string) :
  rstrip (String c s)
  = match rstrip s with
    | EmptyString => if isspace c then EmptyString else String c EmptyString
    | r => String c r
    end.
Proof. reflexivity. Qed.

Lemma rstrip_idempotent (s : string) : rstrip (rstrip s) = rstrip s.
Proof.
  induction s as [|c s IH]; [reflexivity|].
  rewrite rstrip_step. destruct (rstrip s) as [|a r] eqn:E.
  - destruct (isspace c) eqn:Hc; [reflexivity|].
    rewrite rstrip_step. simpl. now rewrite Hc.
  - rewrite rstrip_step, IH. reflexivity.
Qed.

Lemma lstrip_result (s : string) :
  lstrip s = "" \/ exists c r, lstrip s = String c r /\ isspace c = false.
Proof.
  induction s as [|c s IH]; simpl; [now left|].
  destruct (isspace c) eqn:Hc; [exact IH|]. right. now exists c, s.
Qed.

Lemma rstrip_keeps_head (c : ascii) (r : string) :
  isspace c = false -> exists r', rstrip (String c r) = String c r'.
Proof.
  intros Hc. rewrite rstrip_step. destruct (rstrip r) as [|a x].
  - rewrite Hc. now exists "".
  - now exists (String a x).
Qed.

(** A piece that [strip] leaves not empty is tight. *)
Lemma strip_tight (x : string) : truthy (strip x) = true -> tight (strip x).
Proof.
  unfold strip. intros Ht. split; [|apply rstrip_idempotent].
  destruct (lstrip_result x) as [E|(c & r & E & Hc)]; rewrite E in *; [discriminate|].
  destruct (rstrip_keeps_head c r Hc) as [r' E']. rewrite E'. now exists c, r'.
Qed.

Lemma rstrip_app_fixed (x b : string) :
  b <> "" -> rstrip b = b -> rstrip (x ++ b) = x ++ b.
Proof.
  intros Hb Hfix. induction x as [|c x IH]; [exact Hfix|].
  change (String c x ++ b) with (String c (x ++ b)).
  rewrite rstrip_step, IH. destruct (x ++ b) eqn:E; [|reflexivity].
  destruct x; [simpl in E; congruence | discriminate].
Qed.

Lemma tight_glue (a sep b : string) : tight a -> tight b -> tight (a ++ sep ++ b).
Proof.
  intros [(c & r & -> & Hc) _] [(d & q & Hb & Hd) Hfix]. split.
  - now exists c, (r ++ sep ++ b).
  - rewrite <- !app_assoc_str. apply rstrip_app_fixed; [subst b; discriminate | exact Hfix].
Qed.

Lemma join_tight (sep : string) (l : list string) :
  l <> [] -> Forall tight l -> tight (join sep l).
Proof.
  induction l as [|p l IH]; intros Hne Hall; [congruence|].
  inversion Hall as [|? ? Hp Hl]; subst.
  destruct l as [|q l]; [exact Hp|].
  change (join sep (p :: q :: l)) with (p ++ sep ++ join sep (q :: l)).
  apply tight_glue; [exact Hp | apply IH; [discriminate | exact Hl]].
Qed.

Lemma tight_trimmed (s : string) : tight s -> trimmed s.
Proof.
  intros [(c & r & -> & Hc) Hfix]. unfold trimmed, strip.
  cbn [lstrip]. now rewrite Hc.
Qed.

Lemma stripped_pieces_tight (l : list string) :
  Forall tight (filter truthy (map strip l)).
Proof.
  induction l as [|x l IH]; simpl; [constructor|].
  destruct (truthy (strip x)) eqn:E; [|exact IH].
  constructor; [now apply strip_tight | exact IH].
Qed.

Lemma get_text_stripped_trimmed (n : node) : trimmed (get_text_stripped n).
Proof.
  unfold get_text_stripped.
  pose proof (stripped_pieces_tight (all_strings n)) as H.
  destruct (filter truthy (map strip (all_strings n))) as [|p l] eqn:E; [reflexivity|].
  apply tight_trimmed, join_tight; [discriminate | exact H].
Qed.

End HeadingText.

(** X19. The text of a heading has no blank at either end, so blanks and
    line feeds around the title in the page do not keep the pattern,
    anchored at the start, from matching; and when the container has an
    [h2] or [h3] child, the text is that of the first such child alone,
    the links and marks beside it left out. *)
Theorem heading_text_is_trimmed_title (div : node) :
  trimmed (_heading_text_from_div div)
  /\ forall pre h post,
       children div = (pre ++ h :: post)%list ->
       is_title_tag h = true ->
       (forall c, In c pre -> is_title_tag c = false) ->
       _heading_text_from_div div = get_text_stripped h.
Proof.
  split.
  - unfold _heading_text_from_div.
    destruct (find_child ["h2"; "h3"] div); apply get_text_stripped_trimmed.
  - intros pre h post Hcs Hh Hpre.
    assert (Hfind : find_child ["h2"; "h3"] div = Some h).
    { unfold find_child. rewrite Hcs. clear Hcs.
      induction pre as [|c pre IH]; simpl.
      - unfold is_title_tag in Hh. rewrite orb_false_r. now rewrite Hh.
      - pose proof (Hpre c (or_introl eq_refl)) as Hc. unfold is_title_tag in Hc.
        rewrite orb_false_r, Hc. apply IH. intros x Hx. apply Hpre. now right. }
    unfold _heading_text_from_div. now rewrite Hfind.
Qed.

Lemma heading_text_sample :
  trimmed (_heading_text_from_div SampleMore.padded_heading)
  /\ _heading_text_from_div SampleMore.padded_heading
     = get_text_stripped
         (Tag "h2" [] [NavigableString (String LF "   Race ");
                       Tag "i" [] [NavigableString " report "]]).
Proof.
  destruct (heading_text_is_trimmed_title SampleMore.padded_heading) as [Htrim Htitle].
  split; [exact Htrim|].
  apply (Htitle [NavigableString (String LF "  ")] _
           [Tag "span" [("class", "mw-editsection")] [NavigableString "[edit]"]]).
  - reflexivity.
  - reflexivity.
  - intros c Hc. simpl in Hc. destruct Hc as [<-|[]]. reflexivity.
Defined.

Example heading_text_example :
  _heading_text_from_div SampleMore.padded_heading = "Race report"
  /\ Re.race_match (_heading_text_from_div SampleMore.padded_heading) = true.
Proof. split; reflexivity. Qed.
